(** * Pandora: the quiz-answering loop

    A shallow embedding of [src/scraper.js] ([handleDiagnostic],
    [runCanvasScraper]) and [src/login.js] ([loginToCanvas]).

    The program is a sequential script of awaited calls on things it does not
    own: the Playwright page and browser, the Browserbase session, the OpenAI
    client and the file system.  Each such call either fulfils (possibly with
    a text value) or rejects; what happens is decided by an environment that
    sees the whole history of the run.  The script itself is embedded in a
    state-and-exception monad: the state holds the history and the [let]
    variables that outlive a [try] block, exceptions are JavaScript [throw]s.

    Integers are [Z], JavaScript strings are [string], parsed JSON is
    [JsValue] with objects as finite maps from property names.  Of the logger
    calls only the three lines that mark the progress of the loop are kept in
    the history; [console.log], the other logger lines and the reads of
    [page.url()] and [session.id] that feed them are left out. *)

From Stdlib Require Import ZArith QArith Lia.
From stdpp Require Import base strings gmap list.

Local Set Warnings "-register-all".
Local Open Scope string_scope.
Local Open Scope list_scope.
Local Open Scope Z_scope.

(** ** JavaScript values as produced by [JSON.parse]

    Numbers are kept as rationals: the script never computes with a parsed
    number, it only tests whether a value is truthy. *)

Inductive JsValue :=
| VUndefined
| VNull
| VBool (b : bool)
| VNum (q : Q)
| VStr (s : string)
| VArr (elems : list JsValue)
| VObj (props : gmap string JsValue).

(** ToBoolean.  A number too large for a double parses to Infinity, which is
    truthy like every other non-zero number. *)
Definition truthy (v : JsValue) : bool :=
  match v with
  | VUndefined | VNull => false
  | VBool b => b
  | VNum q => negb (Qeq_bool q 0)
  | VStr s => negb (String.eqb s "")
  | VArr _ | VObj _ => true
  end.

(** [v === 'literal'] *)
Definition strict_eq_str (v : JsValue) (literal : string) : bool :=
  match v with
  | VStr s => String.eqb s literal
  | _ => false
  end.

(** [v === null] *)
Definition is_null (v : JsValue) : bool :=
  match v with VNull => true | _ => false end.

(** [Array.isArray(v)] *)
Definition Array_isArray (v : JsValue) : bool :=
  match v with VArr _ => true | _ => false end.

(** [typeof v === 'string'] *)
Definition typeof_string (v : JsValue) : bool :=
  match v with VStr _ => true | _ => false end.

(** The elements of an array and the characters of a string, read where
    [Array.isArray] or [typeof] has just said which of the two [v] is. *)
Definition elements (v : JsValue) : list JsValue :=
  match v with VArr elems => elems | _ => [] end.
Definition string_of (v : JsValue) : string :=
  match v with VStr s => s | _ => "" end.

(** The conversion to a string of a value interpolated in a template literal:
    whether it throws a TypeError.  A parsed object converts through
    [Object.prototype.toString], unless it has a key [toString] of its own:
    the value of that key, coming from JSON, cannot be called, and [valueOf]
    then gives no primitive either.  An array joins the conversions of its
    elements, null and undefined counting as empty. *)
Fixpoint to_string_throws (v : JsValue) : bool :=
  match v with
  | VArr elems => existsb to_string_throws elems
  | VObj props => match props !! "toString" with Some _ => true | None => false end
  | _ => false
  end.

(** [o.key = v] on a parsed object; the script only assigns after it has read
    a string out of [o.questionType], so [o] is an object there. *)
Definition set_prop (o : JsValue) (key : string) (v : JsValue) : JsValue :=
  match o with
  | VObj props => VObj (<[key := v]> props)
  | _ => o
  end.

(** ** Selectors *)

Definition dquote : Ascii.ascii := Ascii.ascii_of_nat 34.
Definition backslash : Ascii.ascii := Ascii.ascii_of_nat 92.
Definition dq : string := String dquote EmptyString.

Definition NEXT_QUESTION_BUTTON_SELECTOR : string :=
  "button.Button.submit_button.next-question:has-text(" +:+ dq +:+ "Next" +:+ dq +:+ ")".
Definition SUBMIT_QUIZ_BUTTON_SELECTOR : string :=
  "button#submit_quiz_button:has-text(" +:+ dq +:+ "Submit Quiz" +:+ dq +:+ ")".
Definition START_QUIZ_SELECTOR : string :=
  "a.btn.btn-primary:has-text(" +:+ dq +:+ "Take the Quiz" +:+ dq +:+ ")".
Definition QUESTIONS_COUNT_SELECTOR : string :=
  "li:has(span.title:has-text(" +:+ dq +:+ "Questions" +:+ dq +:+ ")) > span.value".
Definition USERNAME_SELECTOR : string := "input#username".
Definition PASSWORD_SELECTOR : string := "input#password".
Definition LOGIN_BUTTON_SELECTOR : string :=
  "button[data-testid=" +:+ dq +:+ "login-button" +:+ dq +:+ "]".

(** [answerText.replace] of line 129: every double quote gets a backslash
    before it. *)
Fixpoint escape_quotes (s : string) : string :=
  match s with
  | EmptyString => EmptyString
  | String c rest =>
      if Ascii.eqb c dquote
      then String backslash (String dquote (escape_quotes rest))
      else String c (escape_quotes rest)
  end.

(** The selector of lines 129 and 142: [label:has-text(...)] around the
    escaped answer text in double quotes. *)
Definition mcOptionLabelSelector (answerText : string) : string :=
  "label:has-text(" +:+ dq +:+ escape_quotes answerText +:+ dq +:+ ")".

(** ** Calls on the outside world, and the history of a run *)

(** The files written under [output/screenshots]; the file name is a function
    of the fields kept here. *)
Inductive ScreenshotFile :=
| Q_question (questionIndex : Z)
| Q_after_next (questionIndex : Z)
| Q_error_mc_option_text (questionIndex : Z) (answerText : string)
| Q_error_mc_option (questionIndex : Z)
| Q_error_next_click (questionIndex : Z)
| Q_error_submit_quiz (questionIndex : Z).

Inductive Call :=
| Mkdir                                              (* fs.promises.mkdir(screenshotDir) *)
| WriteFile (file : ScreenshotFile)                  (* fs.promises.writeFile *)
| WaitForLoadState (timeout : Z)                     (* page.waitForLoadState('networkidle') *)
| WaitForTimeout (ms : Z)                            (* page.waitForTimeout *)
| WaitForSelector (selector : string) (timeout : Z)  (* page.waitForSelector *)
| WaitForURL (timeout : Z)                           (* page.waitForURL(config.canvasLoginUrl) *)
| Screenshot (path : option ScreenshotFile)          (* page.screenshot({ path?, fullPage }) *)
| Click (selector : string) (timeout : Z)            (* page.locator(selector).click({ timeout }) *)
| TextContent (selector : string) (timeout : Z)      (* page.locator(selector).textContent *)
| ChatCompletion                                     (* openai.chat.completions.create *)
| SessionsCreate                                     (* bb.sessions.create *)
| ConnectOverCDP                                     (* chromium.connectOverCDP *)
| FirstPage                                          (* browser.contexts()[0].pages()[0] *)
| Goto                                               (* page.goto(config.canvasLoginUrl) *)
| Fill (selector : string)                           (* page.fill *)
| PageClick (selector : string)                      (* page.click *)
| BrowserClose.                                      (* browser.close() *)

(** A call fulfils, with a text value where it has one ([None] is
    null/undefined), or rejects with an error message. *)
Inductive Reply :=
| Fulfilled (value : option string)
| Rejected (message : string).

(** The log lines that mark the progress of the loop (scraper.js lines 30, 44
    and 208).  The other logger calls carry no control flow and are left out. *)
Inductive LogLine :=
| StartingDiagnostic (maxQuestionsToProcess : Z)
| ProcessingQuestion (questionIndex maxQuestionsToProcess : Z)
| FinishedQuestion (questionIndex : Z).

Inductive Event :=
| Called (c : Call) (r : Reply)
| Logged (l : LogLine).

(** Everything the script does not define: the replies of the outside world,
    as a function of the history so far and of the call, and the two built-ins
    whose results steer the script.  [parseInt] is [None] for NaN. *)
Record Env := {
  respond : list Event -> Call -> Reply;
  JSON_parse : string -> option JsValue;
  parseInt : string -> option Z
}.

(** ** Errors, outcomes and the state of a run *)

Inductive Error :=
| Rejection (message : string)                   (* a rejected call *)
| TypeError                                      (* property of null, x.replace is not a function *)
| SyntaxError                                    (* JSON.parse *)
| NoLlmContent (questionIndex : Z)               (* line 102 *)
| FailedToClickNext (questionIndex : Z) (cause : Error)     (* line 186 *)
| FailedToClickSubmit (questionIndex : Z) (cause : Error)   (* line 199 *)
| CanvasLoginFailed (cause : Error).             (* login.js line 86 *)

Inductive ActionTaken :=
| unknown
| next_question_clicked
| error_clicking_next
| quiz_submitted
| error_clicking_submit.

Definition ActionTaken_eqb (a b : ActionTaken) : bool :=
  match a, b with
  | unknown, unknown
  | next_question_clicked, next_question_clicked
  | error_clicking_next, error_clicking_next
  | quiz_submitted, quiz_submitted
  | error_clicking_submit, error_clicking_submit => true
  | _, _ => false
  end.

(** The object pushed on [diagnosticData] (lines 203-207). *)
Record QuestionOutcome := {
  questionIndex : Z;
  llmAnalysis : JsValue;
  actionTaken : ActionTaken
}.

Inductive Page := ThePage.
Inductive Browser := TheBrowser.
Inductive Session := TheSession.

(** What [loginToCanvas] returns. *)
Record LoginResult := {
  lr_page : Page;
  lr_browser : Browser;
  lr_session : Session
}.

(** The [let]/[const] variables that are read after the block that assigns
    them may have thrown. *)
Record Vars := {
  diagnosticData : list QuestionOutcome;   (* handleDiagnostic, line 31 *)
  var_actionTaken : ActionTaken;           (* handleDiagnostic, line 161 *)
  loginResult : option LoginResult;        (* runCanvasScraper, line 232 *)
  session : option Session;                (* loginToCanvas, line 31 *)
  browser : option Browser                 (* loginToCanvas, line 32 *)
}.

Record State := {
  trace : list Event;
  vars : Vars
}.

Definition initial : State :=
  {| trace := [];
     vars := {| diagnosticData := []; var_actionTaken := unknown;
                loginResult := None; session := None; browser := None |} |}.

(** ** The monad of the script *)

Inductive Completion (A : Type) :=
| Normal (a : A)
| Throw (e : Error).
Arguments Normal {A} a.
Arguments Throw {A} e.

Definition M (A : Type) : Type := Env -> State -> Completion A * State.

Definition ret {A} (a : A) : M A := fun _ st => (Normal a, st).

Definition bind {A B} (m : M A) (f : A -> M B) : M B := fun env st =>
  match m env st with
  | (Normal a, st1) => f a env st1
  | (Throw e, st1) => (Throw e, st1)
  end.

Definition throw {A} (e : Error) : M A := fun _ st => (Throw e, st).

(** [try { body } catch (error) { handler }] *)
Definition try_catch {A} (body : M A) (handler : Error -> M A) : M A := fun env st =>
  match body env st with
  | (Normal a, st1) => (Normal a, st1)
  | (Throw e, st1) => handler e env st1
  end.

(** [try { body } finally { finalizer }]: the finalizer always runs; when it
    throws, its error replaces the completion of the body. *)
Definition try_finally {A} (body : M A) (finalizer : M unit) : M A := fun env st =>
  match body env st with
  | (r, st1) =>
      match finalizer env st1 with
      | (Normal _, st2) => (r, st2)
      | (Throw e, st2) => (Throw e, st2)
      end
  end.

Declare Scope js_scope.
Delimit Scope js_scope with js.
Notation "x <- m ;; k" := (bind m (fun x => k))
  (at level 100, m at next level, k at level 200, right associativity) : js_scope.
Notation "m ;; k" := (bind m (fun _ => k))
  (at level 100, k at level 200, right associativity) : js_scope.
Local Open Scope js_scope.

Definition emit (e : Event) (st : State) : State :=
  {| trace := trace st ++ [e]; vars := vars st |}.

(** An awaited call: the environment replies, the history grows, a rejection
    is thrown.  The value is the text the call fulfilled with, if any. *)
Definition call (c : Call) : M (option string) := fun env st =>
  match respond env (trace st) c with
  | Fulfilled v => (Normal v, emit (Called c (Fulfilled v)) st)
  | Rejected m => (Throw (Rejection m), emit (Called c (Rejected m)) st)
  end.

Definition log (l : LogLine) : M unit := fun _ st => (Normal tt, emit (Logged l) st).

Definition get_vars : M Vars := fun _ st => (Normal (vars st), st).

Definition modify (f : Vars -> Vars) : M unit := fun _ st =>
  (Normal tt, {| trace := trace st; vars := f (vars st) |}).

Definition upd_diagnosticData (d : list QuestionOutcome) (v : Vars) : Vars :=
  {| diagnosticData := d; var_actionTaken := var_actionTaken v;
     loginResult := loginResult v; session := session v; browser := browser v |}.
Definition upd_actionTaken (a : ActionTaken) (v : Vars) : Vars :=
  {| diagnosticData := diagnosticData v; var_actionTaken := a;
     loginResult := loginResult v; session := session v; browser := browser v |}.
Definition upd_loginResult (r : option LoginResult) (v : Vars) : Vars :=
  {| diagnosticData := diagnosticData v; var_actionTaken := var_actionTaken v;
     loginResult := r; session := session v; browser := browser v |}.
Definition upd_session (s : option Session) (v : Vars) : Vars :=
  {| diagnosticData := diagnosticData v; var_actionTaken := var_actionTaken v;
     loginResult := loginResult v; session := s; browser := browser v |}.
Definition upd_browser (b : option Browser) (v : Vars) : Vars :=
  {| diagnosticData := diagnosticData v; var_actionTaken := var_actionTaken v;
     loginResult := loginResult v; session := session v; browser := b |}.

Definition set_diagnosticData (d : list QuestionOutcome) : M unit := modify (upd_diagnosticData d).
Definition set_actionTaken (a : ActionTaken) : M unit := modify (upd_actionTaken a).
Definition set_loginResult (r : option LoginResult) : M unit := modify (upd_loginResult r).
Definition set_session (s : option Session) : M unit := modify (upd_session s).
Definition set_browser (b : option Browser) : M unit := modify (upd_browser b).

(** [diagnosticData.push(o)] *)
Definition push (o : QuestionOutcome) : M unit :=
  v <- get_vars ;; set_diagnosticData (diagnosticData v ++ [o]).

(** [o.key]: reading a property of null or undefined throws; a key that is
    not there reads as undefined.  The three keys the script reads are not
    properties of strings, numbers, booleans or arrays. *)
Definition get_prop (o : JsValue) (key : string) : M JsValue :=
  match o with
  | VUndefined | VNull => throw TypeError
  | VObj props => ret (default VUndefined (props !! key))
  | _ => ret VUndefined
  end.

(** [JSON.parse(text)] *)
Definition parse_json (text : string) : M JsValue := fun env st =>
  match JSON_parse env text with
  | Some v => (Normal v, st)
  | None => (Throw SyntaxError, st)
  end.

(** [parseInt(text, 10)] on what [textContent] fulfilled with: null is
    converted to the string "null", which has no digits. *)
Definition js_parseInt (env : Env) (text : option string) : option Z :=
  match text with
  | Some s => parseInt env s
  | None => None
  end.

(** ** scraper.js: [handleDiagnostic] *)

(** The test on [questionType] of lines 109 and 124. *)
Definition is_multiple_choice (questionType : JsValue) : bool :=
  strict_eq_str questionType "multiple-choice-single"
  || strict_eq_str questionType "multiple-choice"
  || strict_eq_str questionType "multiple-choice-multiple".

(** Lines 46-105: wait for the page, take and save the screenshot, ask the
    model, parse its answer. *)
Definition analyseQuestion (questionIndex : Z) : M JsValue :=
  call (WaitForLoadState 10000) ;;
  call (Screenshot None) ;;
  call (WriteFile (Q_question questionIndex)) ;;
  questionLlmAnalysisString <- call ChatCompletion ;;
  match questionLlmAnalysisString with
  | None | Some EmptyString => throw (NoLlmContent questionIndex)
  | Some text => parse_json text
  end.

(** Lines 107-120: the fallback to the first option.  The result is the
    analysis object after the assignment to its [correctAnswer].  The three
    reads are done up front: a read only throws on null or undefined, where
    the first one already does.  The warning of line 113 interpolates the
    first option before anything is assigned. *)
Definition applyFallback (questionLlmAnalysis : JsValue) : M JsValue :=
  correctAnswer <- get_prop questionLlmAnalysis "correctAnswer" ;;
  questionType <- get_prop questionLlmAnalysis "questionType" ;;
  options <- get_prop questionLlmAnalysis "options" ;;
  if is_null correctAnswer
     && is_multiple_choice questionType
     && Array_isArray options && (0 <? Z.of_nat (length (elements options)))
  then
    let fallbackAnswer := default VUndefined (elements options !! 0%nat) in
    if to_string_throws fallbackAnswer then throw TypeError        (* line 113 *)
    else if strict_eq_str questionType "multiple-choice-multiple"
    then ret (set_prop questionLlmAnalysis "correctAnswer" (VArr [fallbackAnswer]))
    else ret (set_prop questionLlmAnalysis "correctAnswer" fallbackAnswer)
  else ret questionLlmAnalysis.

(** Lines 127-138: the body of the [for ... of] over the answers.  The
    selector is built before the [try], so an element that is not a string
    throws past it; the screenshot of the [catch] is awaited unguarded. *)
Definition selectOption (questionIndex : Z) (answerText : JsValue) : M unit :=
  match answerText with
  | VStr text =>
      let mcOptionLabelSelector := mcOptionLabelSelector text in
      try_catch
        (call (Click mcOptionLabelSelector 10000) ;; ret tt)
        (fun error =>
           call (Screenshot (Some (Q_error_mc_option_text questionIndex text))) ;;
           ret tt)
  | _ => throw TypeError
  end.

Fixpoint for_of {A} (items : list A) (body : A -> M unit) : M unit :=
  match items with
  | [] => ret tt
  | x :: rest => body x ;; for_of rest body
  end.

(** Lines 139-149: the single answer, clicked with a longer timeout. *)
Definition selectSingle (questionIndex : Z) (answerText : string) : M unit :=
  let mcOptionLabelSelector := mcOptionLabelSelector answerText in
  try_catch
    (call (Click mcOptionLabelSelector 15000) ;; ret tt)
    (fun error =>
       call (Screenshot (Some (Q_error_mc_option questionIndex))) ;;
       ret tt).

(** Lines 124-158: act on the page according to the analysis.  The warning
    of line 151 goes through [JSON.stringify], which does not throw on a
    parsed value; the one of line 157 interpolates [questionType]. *)
Definition interact (questionIndex : Z) (questionLlmAnalysis : JsValue) : M unit :=
  questionType <- get_prop questionLlmAnalysis "questionType" ;;
  correctAnswer <- get_prop questionLlmAnalysis "correctAnswer" ;;
  if is_multiple_choice questionType && truthy correctAnswer then
    if strict_eq_str questionType "multiple-choice-multiple" && Array_isArray correctAnswer
    then for_of (elements correctAnswer) (selectOption questionIndex)
    else if typeof_string correctAnswer
    then selectSingle questionIndex (string_of correctAnswer)
    else ret tt                                                    (* line 151 *)
  else if strict_eq_str questionType "free-response" then ret tt   (* line 154 *)
  else if to_string_throws questionType then throw TypeError       (* line 157 *)
  else ret tt.

(** Lines 107-158: choose the answer and act on it; the result is the
    analysis as the fallback left it. *)
Definition answerQuestion (questionIndex : Z) (questionLlmAnalysis : JsValue) : M JsValue :=
  questionLlmAnalysis <- applyFallback questionLlmAnalysis ;;
  interact questionIndex questionLlmAnalysis ;;
  ret questionLlmAnalysis.

(** Lines 160-201: click Next or Submit Quiz.  Everything inside the [try]
    of the Next branch, the waits and the second screenshot included, ends in
    the same [catch]. *)
Definition terminalAction (questionIndex maxQuestionsToProcess : Z) : M unit :=
  set_actionTaken unknown ;;
  if questionIndex <? maxQuestionsToProcess then
    try_catch
      (call (Click NEXT_QUESTION_BUTTON_SELECTOR 15000) ;;
       set_actionTaken next_question_clicked ;;
       call (WaitForLoadState 15000) ;;
       call (WaitForTimeout 2000) ;;
       call (Screenshot None) ;;
       call (WriteFile (Q_after_next questionIndex)) ;;
       ret tt)
      (fun error =>
         call (Screenshot (Some (Q_error_next_click questionIndex))) ;;
         set_actionTaken error_clicking_next ;;
         throw (FailedToClickNext questionIndex error))
  else
    try_catch
      (call (Click SUBMIT_QUIZ_BUTTON_SELECTOR 15000) ;;
       set_actionTaken quiz_submitted)
      (fun error =>
         call (Screenshot (Some (Q_error_submit_quiz questionIndex))) ;;
         set_actionTaken error_clicking_submit ;;
         throw (FailedToClickSubmit questionIndex error)).

(** Lines 43-213: one turn of the loop.  The result tells whether the turn
    ended in the [return] of line 212. *)
Definition processQuestion (maxQuestionsToProcess i : Z) : M bool :=
  let questionIndex := i + 1 in
  log (ProcessingQuestion questionIndex maxQuestionsToProcess) ;;
  questionLlmAnalysis <- analyseQuestion questionIndex ;;
  questionLlmAnalysis <- answerQuestion questionIndex questionLlmAnalysis ;;
  terminalAction questionIndex maxQuestionsToProcess ;;
  v <- get_vars ;;
  push {| questionIndex := questionIndex;
          llmAnalysis := questionLlmAnalysis;
          actionTaken := var_actionTaken v |} ;;
  log (FinishedQuestion questionIndex) ;;
  ret (ActionTaken_eqb (var_actionTaken v) quiz_submitted).

(** Lines 42-219: [for (let i = 0; i < maxQuestionsToProcess; i++)].  The
    recursion is on [bound], an upper bound on the turns left; with a bound of
    at least [maxQuestionsToProcess - i] the loop only ends through its own
    test or the [return] of line 212 (lemma [questionLoop_bound]). *)
Fixpoint questionLoop (bound : nat) (maxQuestionsToProcess i : Z)
  : M (list QuestionOutcome) :=
  match bound with
  | O => v <- get_vars ;; ret (diagnosticData v)
  | S bound' =>
      if i <? maxQuestionsToProcess then
        submitted <- processQuestion maxQuestionsToProcess i ;;
        if (submitted : bool)
        then v <- get_vars ;; ret (diagnosticData v)            (* line 212 *)
        else questionLoop bound' maxQuestionsToProcess (i + 1)
      else v <- get_vars ;; ret (diagnosticData v)              (* line 219 *)
  end.

(** Lines 29-228.  The [catch] logs and rethrows. *)
Definition handleDiagnostic (maxQuestionsToProcess : Z) : M (list QuestionOutcome) :=
  log (StartingDiagnostic maxQuestionsToProcess) ;;
  set_diagnosticData [] ;;
  try_catch
    (call Mkdir ;;
     questionLoop (Z.to_nat maxQuestionsToProcess) maxQuestionsToProcess 0)
    (fun error => throw error).

(** ** login.js: [loginToCanvas] *)

Definition loginToCanvas : M LoginResult :=
  set_session None ;;
  set_browser None ;;
  try_catch
    (call SessionsCreate ;;
     set_session (Some TheSession) ;;
     call ConnectOverCDP ;;
     set_browser (Some TheBrowser) ;;
     call FirstPage ;;
     call Goto ;;
     call (WaitForSelector USERNAME_SELECTOR 15000) ;;
     call (Fill USERNAME_SELECTOR) ;;
     call (Fill PASSWORD_SELECTOR) ;;
     call (PageClick LOGIN_BUTTON_SELECTOR) ;;
     call (WaitForURL 25000) ;;
     ret {| lr_page := ThePage; lr_browser := TheBrowser; lr_session := TheSession |})
    (fun error =>
       v <- get_vars ;;
       match browser v with
       | Some _ => try_catch (call BrowserClose ;; ret tt) (fun e => ret tt)
       | None => ret tt
       end ;;
       throw (CanvasLoginFailed error)).

(** ** scraper.js: [runCanvasScraper] *)

(** Lines 258-274: read the number of questions off the landing page. *)
Definition scrapeMaxQuestions : M Z :=
  try_catch
    (questionsCountText <- call (TextContent QUESTIONS_COUNT_SELECTOR 10000) ;;
     fun env =>
       match js_parseInt env questionsCountText with
       | None => ret 1 env                                      (* isNaN *)
       | Some actualMaxQuestions =>
           if actualMaxQuestions <=? 0 then ret 1 env
           else ret actualMaxQuestions env
       end)
    (fun error => ret 1).

(** Lines 252-287: from the landing page of the quiz to the end of the
    questions.  The value of [handleDiagnostic] is dropped (line 287). *)
Definition takeQuiz : M unit :=
  call (WaitForSelector START_QUIZ_SELECTOR 20000) ;;
  actualMaxQuestions <- scrapeMaxQuestions ;;
  call (Click START_QUIZ_SELECTOR 20000) ;;
  call (WaitForLoadState 20000) ;;
  handleDiagnostic actualMaxQuestions ;;
  ret tt.

(** Lines 231-313.  The [catch] only logs, and the function has no [return]. *)
Definition runCanvasScraper : M unit :=
  set_loginResult None ;;
  try_finally
    (try_catch
       (call Mkdir ;;
        result <- loginToCanvas ;;
        set_loginResult (Some result) ;;
        takeQuiz)
       (fun error => ret tt))
    (v <- get_vars ;;
     match loginResult v with
     | Some result => call BrowserClose ;; ret tt
     | None => ret tt
     end).

(** ** What is observed of a run *)

(** The clicks attempted among some events: selector and timeout. *)
Definition click_of (e : Event) : option (string * Z) :=
  match e with
  | Called (Click selector timeout) _ => Some (selector, timeout)
  | _ => None
  end.
Definition clicks (ev : list Event) : list (string * Z) := omap click_of ev.

(** The clicks on Next and on Submit Quiz among some events. *)
Definition terminal_click (e : Event) : option string :=
  match e with
  | Called (Click selector _) _ =>
      if String.eqb selector NEXT_QUESTION_BUTTON_SELECTOR
         || String.eqb selector SUBMIT_QUIZ_BUTTON_SELECTOR
      then Some selector else None
  | _ => None
  end.
Definition terminal_clicks (ev : list Event) : list string := omap terminal_click ev.

(** The indices of the questions whose processing was started (line 44). *)
Definition processing_index (e : Event) : option Z :=
  match e with
  | Logged (ProcessingQuestion questionIndex _) => Some questionIndex
  | _ => None
  end.
Definition processing_indices (ev : list Event) : list Z := omap processing_index ev.

Fixpoint count (p : Event -> bool) (ev : list Event) : nat :=
  match ev with
  | [] => 0
  | e :: rest => (if p e then 1 else 0) + count p rest
  end.

Definition is_close (e : Event) : bool :=
  match e with Called BrowserClose _ => true | _ => false end.

(** [chromium.connectOverCDP] fulfilled: from here on the browser handle exists. *)
Definition is_connect (e : Event) : bool :=
  match e with Called ConnectOverCDP (Fulfilled _) => true | _ => false end.

Definition closes (ev : list Event) : nat := count is_close ev.
Definition handle_exists (ev : list Event) : bool := existsb is_connect ev.

(** Whether [handleDiagnostic] got as far as its loop: its first log line is
    followed by a fulfilled [mkdir]. *)
Fixpoint loop_entered (ev : list Event) : bool :=
  match ev with
  | [] => false
  | Logged (StartingDiagnostic _) :: (Called Mkdir (Fulfilled _) :: _) => true
  | _ :: rest => loop_entered rest
  end.

(** Whether the questions count read off the landing page is unusable: the
    read was rejected, or its text parses to NaN or to a number that is not
    positive. *)
Definition discovery_fails (env : Env) (reply : Reply) : Prop :=
  match reply with
  | Rejected _ => True
  | Fulfilled text =>
      match js_parseInt env text with
      | None => True
      | Some actualMaxQuestions => actualMaxQuestions <= 0
      end
  end.

(** The screenshot taken in the [catch] of an option's click (line 135) is
    captured, whatever happened before. *)
Definition option_screenshots_captured (env : Env) (questionIndex : Z) : Prop :=
  forall history text,
    exists v, respond env history (Screenshot (Some (Q_error_mc_option_text questionIndex text)))
              = Fulfilled v.

(** A [correctAnswer] that is an array of labels. *)
Definition multi_answers (labels : list string) : JsValue := VArr (VStr <$> labels).

(** What lines 163-201 do on a question that goes through. *)
Definition expected_action (questionIndex maxQuestionsToProcess : Z) : ActionTaken :=
  if questionIndex <? maxQuestionsToProcess then next_question_clicked else quiz_submitted.
Definition expected_selector (questionIndex maxQuestionsToProcess : Z) : string :=
  if questionIndex <? maxQuestionsToProcess
  then NEXT_QUESTION_BUTTON_SELECTOR else SUBMIT_QUIZ_BUTTON_SELECTOR.

(** The variables of the callers of [handleDiagnostic]. *)
Definition outer_vars (v : Vars) : option LoginResult * option Session * option Browser :=
  (loginResult v, session v, browser v).

(** ** Classes of events, by the block that makes them *)

(** [io P m]: [m] leaves the variables alone and only adds events in [P]. *)
Definition io {A} (P : Event -> Prop) (m : M A) : Prop :=
  forall env st, exists ev,
    snd (m env st) = {| trace := trace st ++ ev; vars := vars st |} /\ Forall P ev.

Definition analysing (questionIndex : Z) (e : Event) : Prop :=
  exists r, e = Called (WaitForLoadState 10000) r \/ e = Called (Screenshot None) r
         \/ e = Called (WriteFile (Q_question questionIndex)) r \/ e = Called ChatCompletion r.

Definition answering (questionIndex : Z) (e : Event) : Prop :=
  exists r, (exists text timeout, e = Called (Click (mcOptionLabelSelector text) timeout) r)
         \/ (exists file, e = Called (Screenshot (Some file)) r).

Definition question_call (c : Call) : bool :=
  match c with
  | WaitForLoadState _ | WaitForTimeout _ | Screenshot _ | WriteFile _
  | Click _ _ | ChatCompletion => true
  | _ => false
  end.
Definition question_event (e : Event) : Prop :=
  match e with
  | Called c _ => question_call c = true
  | Logged (FinishedQuestion _) => True
  | Logged _ => False
  end.
Definition loop_event (e : Event) : Prop :=
  question_event e \/ exists j m, e = Logged (ProcessingQuestion j m).
Definition diagnostic_event (e : Event) : Prop :=
  loop_event e \/ (exists r, e = Called Mkdir r).
Definition quiz_event (e : Event) : Prop := is_close e = false /\ is_connect e = false.

Definition login_call (c : Call) : bool :=
  match c with
  | SessionsCreate | ConnectOverCDP | FirstPage | Goto | WaitForSelector _ _
  | WaitForURL _ | Fill _ | PageClick _ | BrowserClose => true
  | _ => false
  end.
Definition login_event (e : Event) : Prop :=
  match e with
  | Called c _ => login_call c = true
  | Logged _ => False
  end.

(** What [runCanvasScraper] does before the quiz: the first [mkdir] and the
    login. *)
Definition setup_event (e : Event) : Prop :=
  match e with
  | Called c _ => c = Mkdir \/ login_call c = true
  | Logged _ => False
  end.

(** ** Concrete runs *)

(** An outside world in which every call fulfils except those picked by
    [rejects]; the model always answers with the same text, which parses to
    [analysis]; the landing page shows [count]. *)
Definition quiz_env (count : option string) (analysis : JsValue)
    (rejects : list Event -> Call -> bool) : Env :=
  {| respond h c :=
       if rejects h c then Rejected "Timeout 15000ms exceeded"
       else Fulfilled match c with
                      | TextContent _ _ => count
                      | ChatCompletion => Some "{...}"
                      | _ => None
                      end;
     JSON_parse text := if String.eqb text "{...}" then Some analysis else None;
     parseInt text :=
       if String.eqb text "2" then Some 2
       else if String.eqb text "3" then Some 3
       else if String.eqb text "0" then Some 0 else None |}.

Definition never : list Event -> Call -> bool := fun _ _ => false.
Definition submit_rejected : list Event -> Call -> bool := fun _ c =>
  match c with
  | Click selector _ => String.eqb selector SUBMIT_QUIZ_BUTTON_SELECTOR
  | _ => false
  end.
Definition label_B_rejected : list Event -> Call -> bool := fun _ c =>
  match c with
  | Click selector _ => String.eqb selector (mcOptionLabelSelector "B")
  | _ => false
  end.
Definition label_B_and_screenshot_rejected : list Event -> Call -> bool := fun _ c =>
  match c with
  | Click selector _ => String.eqb selector (mcOptionLabelSelector "B")
  | Screenshot (Some _) => true
  | _ => false
  end.

Definition ABC : list JsValue := [VStr "A"; VStr "B"; VStr "C"].

(** A single-choice analysis with the given [correctAnswer], or without the
    field. *)
Definition single_props (correctAnswer : option JsValue) (options : list JsValue)
  : gmap string JsValue :=
  let base : gmap string JsValue :=
    {[ "questionType" := VStr "multiple-choice-single"; "options" := VArr options ]} in
  match correctAnswer with
  | Some v => <["correctAnswer" := v]> base
  | None => base
  end.

Definition multi_props : gmap string JsValue :=
  {[ "questionType" := VStr "multiple-choice-multiple";
     "options" := VArr ABC;
     "correctAnswer" := multi_answers ["B"; "C"] ]}.

Definition analysis_single : JsValue := VObj (single_props (Some (VStr "B")) ABC).

Definition three_questions : Env := quiz_env (Some "3") analysis_single never.
Definition two_questions_submit_rejected : Env :=
  quiz_env (Some "2") analysis_single submit_rejected.
Definition count_unreadable : Env := quiz_env (Some "n/a") analysis_single never.
Definition multi_env : Env := quiz_env (Some "3") (VObj multi_props) label_B_rejected.
Definition multi_env_no_screenshot : Env :=
  quiz_env (Some "3") (VObj multi_props) label_B_and_screenshot_rejected.

(** Case analysis on the replies of the calls a run makes, in order. *)
Ltac run_calls :=
  repeat match goal with
         | H : context [match respond ?e ?h ?c with _ => _ end] |- _ =>
             destruct (respond e h c) eqn:?
         end.

(** ** Reading an analysis *)

(** What [o.key] reads on a value that is neither null nor undefined. *)
Definition prop_of (o : JsValue) (key : string) : JsValue :=
  match o with
  | VObj props => default VUndefined (props !! key)
  | _ => VUndefined
  end.

(** null or undefined: the values whose properties cannot be read. *)
Definition nullish (v : JsValue) : bool :=
  match v with VUndefined | VNull => true | _ => false end.

(** An analysis object with the given type and answer and the options A, B, C. *)
Definition analysis_props (questionType : string) (correctAnswer : JsValue)
  : gmap string JsValue :=
  {[ "questionType" := VStr questionType;
     "options" := VArr ABC;
     "correctAnswer" := correctAnswer ]}.

(** A [questionType] that is an object with a key [toString], here with the
    value null, and an analysis of that type, with the options A, B, C. *)
Definition unprintable_type : JsValue := VObj {[ "toString" := VNull ]}.
Definition unprintable_type_props (correctAnswer : JsValue) : gmap string JsValue :=
  {[ "questionType" := unprintable_type;
     "options" := VArr ABC;
     "correctAnswer" := correctAnswer ]}.

(** The language model answers with the JSON text [null]. *)
Definition null_analysis : Env := quiz_env (Some "3") VNull never.

(** A [correctAnswer] array whose second element is a number. *)
Definition answers_B_7_C : JsValue := VArr [VStr "B"; VNum 7; VStr "C"].

(** ** What is observed of an escaped text *)

(** Every double quote of [s] comes directly after a backslash;
    [after_backslash] tells whether the character before [s] is one. *)
Fixpoint quotes_escaped (after_backslash : bool) (s : string) : bool :=
  match s with
  | EmptyString => true
  | String c rest =>
      (if Ascii.eqb c dquote then after_backslash else true)
      && quotes_escaped (Ascii.eqb c backslash) rest
  end.

Fixpoint count_quotes (s : string) : nat :=
  match s with
  | EmptyString => 0
  | String c rest => (if Ascii.eqb c dquote then 1 else 0) + count_quotes rest
  end.

(** ** What a run can throw *)

(** [throws P m]: whatever [m] throws is in [P]. *)
Definition throws {A} (P : Error -> Prop) (m : M A) : Prop :=
  forall env st e st', m env st = (Throw e, st') -> P e.

(** The errors of one question of index [questionIndex] out of [maxQ]: a
    rejected call as it came, a TypeError, a SyntaxError, or one of the three
    errors the loop makes itself, which name the question. *)
Definition step_error (questionIndex maxQ : Z) (e : Error) : Prop :=
  match e with
  | Rejection _ | TypeError | SyntaxError => True
  | NoLlmContent k => k = questionIndex
  | FailedToClickNext k (Rejection _) => k = questionIndex /\ questionIndex < maxQ
  | FailedToClickSubmit k (Rejection _) => k = questionIndex /\ maxQ <= questionIndex
  | _ => False
  end.

(** The click on Next fulfils and the wait for the next page is rejected. *)
Definition wait_after_next_rejected : list Event -> Call -> bool := fun _ c =>
  match c with
  | WaitForLoadState timeout => timeout =? 15000
  | _ => false
  end.
Definition stuck_after_next : Env := quiz_env (Some "3") analysis_single wait_after_next_rejected.

(** The clicks on Next and Submit Quiz of a run of [maxQ] questions that
    goes to its end. *)
Definition expected_terminal_clicks (maxQ : Z) : list string :=
  replicate (Z.to_nat (maxQ - 1)) NEXT_QUESTION_BUTTON_SELECTOR ++ [SUBMIT_QUIZ_BUTTON_SELECTOR].

(** The calls of [loginToCanvas], in the order of lines 36-72. *)
Definition login_calls : list Call :=
  [SessionsCreate; ConnectOverCDP; FirstPage; Goto;
   WaitForSelector USERNAME_SELECTOR 15000; Fill USERNAME_SELECTOR; Fill PASSWORD_SELECTOR;
   PageClick LOGIN_BUTTON_SELECTOR; WaitForURL 25000].

(** The event [e] is the call [c], fulfilled. *)
Definition fulfils (c : Call) (e : Event) : Prop := exists v, e = Called c (Fulfilled v).

(** The page never shows the username field. *)
Definition no_username_field : list Event -> Call -> bool := fun _ c =>
  match c with
  | WaitForSelector _ timeout => timeout =? 15000
  | BrowserClose => true
  | _ => false
  end.
Definition login_page_broken : Env := quiz_env (Some "3") analysis_single no_username_field.

(** ** config.js *)

(** [process.env] once [dotenv.config()] has run: the six variables the
    module reads, [None] for one that is not set. *)
Record ProcessEnv := {
  BROWSERBASE_API_KEY : option string;
  BROWSERBASE_PROJECT_ID : option string;
  CANVAS_USERNAME : option string;
  CANVAS_PASSWORD : option string;
  CANVAS_LOGIN_URL : option string;
  OPENAI_API_KEY : option string
}.

(** Lines 4-11: the exported [config]. *)
Record Config := {
  browserbaseApiKey : option string;
  browserbaseProjectId : option string;
  canvasUsername : option string;
  canvasPassword : option string;
  canvasLoginUrl : option string;
  openaiApiKey : option string
}.

(** The four errors of lines 14-28. *)
Inductive ConfigError :=
| BrowserbaseMissing        (* Browserbase API Key or Project ID is missing *)
| CanvasCredentialsMissing  (* Canvas credentials are missing *)
| CanvasLoginUrlMissing     (* Canvas login URL is missing *)
| OpenAIKeyMissing.         (* OpenAI API Key is missing *)

(** [!value] on a variable of the environment: undefined or the empty
    string. *)
Definition not_set (value : option string) : bool :=
  match value with
  | None | Some EmptyString => true
  | Some _ => false
  end.

Definition config (env : ProcessEnv) : Config :=
  {| browserbaseApiKey := BROWSERBASE_API_KEY env;
     browserbaseProjectId := BROWSERBASE_PROJECT_ID env;
     canvasUsername := CANVAS_USERNAME env;
     canvasPassword := CANVAS_PASSWORD env;
     canvasLoginUrl := CANVAS_LOGIN_URL env;
     openaiApiKey := OPENAI_API_KEY env |}.

(** The evaluation of the module: the error thrown by the validation of
    lines 14-28, or the exported [config]. *)
Definition load_config (env : ProcessEnv) : ConfigError + Config :=
  let config := config env in
  if not_set (browserbaseApiKey config) || not_set (browserbaseProjectId config)
  then inl BrowserbaseMissing
  else if not_set (canvasUsername config) || not_set (canvasPassword config)
  then inl CanvasCredentialsMissing
  else if not_set (canvasLoginUrl config) then inl CanvasLoginUrlMissing
  else if not_set (openaiApiKey config) then inl OpenAIKeyMissing
  else inr config.

(** The variables of the environment, in the order of their checks. *)
Definition checked_variables (env : ProcessEnv) : list (option string * ConfigError) :=
  [(BROWSERBASE_API_KEY env, BrowserbaseMissing);
   (BROWSERBASE_PROJECT_ID env, BrowserbaseMissing);
   (CANVAS_USERNAME env, CanvasCredentialsMissing);
   (CANVAS_PASSWORD env, CanvasCredentialsMissing);
   (CANVAS_LOGIN_URL env, CanvasLoginUrlMissing);
   (OPENAI_API_KEY env, OpenAIKeyMissing)].

(** ** The monad: inversion and framing *)

Lemma state_eta st : {| trace := trace st ++ []; vars := vars st |} = st.
Proof. destruct st; simpl; by rewrite app_nil_r. Qed.

Lemma bind_inv {A B} (m : M A) (f : A -> M B) env st r st' :
  bind m f env st = (r, st') ->
  (exists a st1, m env st = (Normal a, st1) /\ f a env st1 = (r, st'))
  \/ (exists e, m env st = (Throw e, st') /\ r = Throw e).
Proof.
  unfold bind. destruct (m env st) as [[a|e] st1]; intros H.
  - left. eauto.
  - right. simplify_eq. eauto.
Qed.

Lemma call_inv c env st r st' :
  call c env st = (r, st') ->
  st' = emit (Called c (respond env (trace st) c)) st
  /\ r = match respond env (trace st) c with
         | Fulfilled v => Normal v
         | Rejected m => Throw (Rejection m)
         end.
Proof. unfold call. destruct (respond env (trace st) c); intros H; by simplify_eq. Qed.

Lemma try_catch_ret_tt (m : M unit) env st :
  fst (try_catch m (fun _ => ret tt) env st) = Normal tt.
Proof. unfold try_catch. by destruct (m env st) as [[[]|e] st1]. Qed.

Lemma try_finally_inv {A} (body : M A) finalizer env st r st' :
  try_finally body finalizer env st = (r, st') ->
  exists r1 st1 r2,
    body env st = (r1, st1)
    /\ finalizer env st1 = (r2, st')
    /\ r = match r2 with Normal _ => r1 | Throw e => Throw e end.
Proof.
  unfold try_finally. destruct (body env st) as [r1 st1].
  destruct (finalizer env st1) as [[[]|e] st2] eqn:Hf; intros H; injection H as <- <-;
    eexists _, _, _; split_and!; eauto.
Qed.

Lemma io_ret {A} P (a : A) : io P (ret a).
Proof. intros env st. exists []. simpl. by rewrite state_eta. Qed.

Lemma io_throw {A} P e : io P (@throw A e).
Proof. intros env st. exists []. simpl. by rewrite state_eta. Qed.

Lemma io_bind {A B} P (m : M A) (f : A -> M B) :
  io P m -> (forall a, io P (f a)) -> io P (bind m f).
Proof.
  intros Hm Hf env st. unfold bind.
  destruct (Hm env st) as (ev1 & E1 & F1).
  destruct (m env st) as [[a|e] st1]; simpl in E1; subst st1.
  - destruct (Hf a env {| trace := trace st ++ ev1; vars := vars st |}) as (ev2 & E2 & F2).
    exists (ev1 ++ ev2). rewrite E2. simpl. rewrite app_assoc. split; [done|].
    by apply Forall_app.
  - by exists ev1.
Qed.

Lemma io_try_catch {A} P (m : M A) h :
  io P m -> (forall e, io P (h e)) -> io P (try_catch m h).
Proof.
  intros Hm Hh env st. unfold try_catch.
  destruct (Hm env st) as (ev1 & E1 & F1).
  destruct (m env st) as [[a|e] st1]; simpl in E1; subst st1.
  - by exists ev1.
  - destruct (Hh e env {| trace := trace st ++ ev1; vars := vars st |}) as (ev2 & E2 & F2).
    exists (ev1 ++ ev2). rewrite E2. simpl. rewrite app_assoc. split; [done|].
    by apply Forall_app.
Qed.

Lemma io_call (P : Event -> Prop) c : (forall r, P (Called c r)) -> io P (call c).
Proof.
  intros HP env st. unfold call.
  destruct (respond env (trace st) c) as [v|m];
    (eexists [_]; split; [reflexivity|]; by repeat constructor).
Qed.

Lemma io_get_prop P o key : io P (get_prop o key).
Proof. destruct o; simpl; first [apply io_throw | apply io_ret]. Qed.

Lemma io_parse_json P text : io P (parse_json text).
Proof.
  intros env st. exists []. unfold parse_json.
  destruct (JSON_parse env text); simpl; by rewrite state_eta.
Qed.

Lemma io_for_of {A} P (items : list A) body :
  (forall x, io P (body x)) -> io P (for_of items body).
Proof.
  intros Hb. induction items as [|x rest IH]; simpl.
  - apply io_ret.
  - apply io_bind; auto.
Qed.

Lemma io_weaken {A} (P Q : Event -> Prop) (m : M A) :
  (forall e, P e -> Q e) -> io P m -> io Q m.
Proof.
  intros HPQ Hm env st. destruct (Hm env st) as (ev & E & F).
  exists ev. split; [done|]. eapply Forall_impl; eauto.
Qed.

Lemma io_run {A} P (m : M A) env st r st1 :
  io P m -> m env st = (r, st1) ->
  exists ev, st1 = {| trace := trace st ++ ev; vars := vars st |} /\ Forall P ev.
Proof. intros Hm E. destruct (Hm env st) as (ev & E1 & F). rewrite E in E1. eauto. Qed.

Create HintDb io discriminated.
#[local] Hint Resolve io_ret io_throw io_get_prop io_parse_json : io.
#[local] Hint Resolve io_bind io_try_catch io_for_of | 2 : io.

(** ** The events of each block of [handleDiagnostic] *)

Lemma analyseQuestion_io questionIndex :
  io (analysing questionIndex) (analyseQuestion questionIndex).
Proof.
  assert (forall c, (forall r, analysing questionIndex (Called c r)) ->
                    io (analysing questionIndex) (call c)) as Hcall
    by (intros c; apply io_call).
  unfold analyseQuestion.
  do 3 (apply io_bind; [apply Hcall; intros r; exists r; tauto|intros _]).
  apply io_bind; [apply Hcall; intros r; exists r; tauto|].
  intros [[|c text]|]; auto with io.
Qed.

Lemma applyFallback_io a : io (fun _ => False) (applyFallback a).
Proof.
  unfold applyFallback.
  do 3 (apply io_bind; [auto with io|intros ?]).
  repeat match goal with |- io _ (match ?x with _ => _ end) => destruct x end; auto with io.
Qed.

Lemma selectOption_io questionIndex x :
  io (answering questionIndex) (selectOption questionIndex x).
Proof.
  unfold selectOption. destruct x; auto with io.
  apply io_try_catch; [|intros _];
    (apply io_bind; [|auto with io]); apply io_call; intros r; exists r; eauto.
Qed.

Lemma selectSingle_io questionIndex answerText :
  io (answering questionIndex) (selectSingle questionIndex answerText).
Proof.
  unfold selectSingle.
  apply io_try_catch; [|intros _];
    (apply io_bind; [|auto with io]); apply io_call; intros r; exists r; eauto.
Qed.

Lemma interact_io questionIndex a : io (answering questionIndex) (interact questionIndex a).
Proof.
  unfold interact.
  do 2 (apply io_bind; [auto with io|intros ?]).
  repeat match goal with |- io _ (match ?x with _ => _ end) => destruct x end; auto with io.
  - apply io_for_of, selectOption_io.
  - apply selectSingle_io.
Qed.

Lemma answerQuestion_io questionIndex a :
  io (answering questionIndex) (answerQuestion questionIndex a).
Proof.
  unfold answerQuestion.
  apply io_bind; [eapply io_weaken; [|apply applyFallback_io]; intros e H; destruct H|intros a'].
  apply io_bind; [apply interact_io|auto with io].
Qed.

Lemma Forall_analysing i ev : Forall (analysing i) ev -> Forall question_event ev.
Proof.
  intros H. eapply Forall_impl; [exact H|].
  intros e [r [->|[->|[->| ->]]]]; reflexivity.
Qed.

Lemma Forall_answering i ev : Forall (answering i) ev -> Forall question_event ev.
Proof.
  intros H. eapply Forall_impl; [exact H|].
  intros e [r [(t & n & ->)|(f & ->)]]; reflexivity.
Qed.

(** An option's label is never mistaken for the Next or the Submit button. *)
Lemma mcOptionLabelSelector_not_terminal text :
  String.eqb (mcOptionLabelSelector text) NEXT_QUESTION_BUTTON_SELECTOR
  || String.eqb (mcOptionLabelSelector text) SUBMIT_QUIZ_BUTTON_SELECTOR = false.
Proof. reflexivity. Qed.

Lemma terminal_clicks_app ev1 ev2 :
  terminal_clicks (ev1 ++ ev2) = terminal_clicks ev1 ++ terminal_clicks ev2.
Proof. apply omap_app. Qed.

Lemma terminal_clicks_cons e ev :
  terminal_clicks (e :: ev) =
  match terminal_click e with
  | Some selector => selector :: terminal_clicks ev
  | None => terminal_clicks ev
  end.
Proof. reflexivity. Qed.

Lemma terminal_clicks_analysing i ev : Forall (analysing i) ev -> terminal_clicks ev = [].
Proof.
  induction 1 as [|e ev He _ IH]; [done|].
  rewrite terminal_clicks_cons, IH.
  by destruct He as [r [->|[->|[->| ->]]]].
Qed.

Lemma terminal_clicks_answering i ev : Forall (answering i) ev -> terminal_clicks ev = [].
Proof.
  induction 1 as [|e ev He _ IH]; [done|].
  rewrite terminal_clicks_cons, IH.
  destruct He as [r [(t & n & ->)|(f & ->)]]; [|done].
  unfold terminal_click. by rewrite mcOptionLabelSelector_not_terminal.
Qed.

Lemma clicks_app ev1 ev2 : clicks (ev1 ++ ev2) = clicks ev1 ++ clicks ev2.
Proof. apply omap_app. Qed.

Lemma processing_indices_app ev1 ev2 :
  processing_indices (ev1 ++ ev2) = processing_indices ev1 ++ processing_indices ev2.
Proof. apply omap_app. Qed.

Lemma processing_indices_question ev : Forall question_event ev -> processing_indices ev = [].
Proof.
  induction 1 as [|e ev He _ IH]; [done|].
  change (processing_indices (e :: ev))
    with (match processing_index e with Some j => j :: processing_indices ev
          | None => processing_indices ev end).
  rewrite IH. by destruct e as [c r|[]].
Qed.

Lemma expected_action_submitted questionIndex maxQ :
  ActionTaken_eqb (expected_action questionIndex maxQ) quiz_submitted
  = negb (questionIndex <? maxQ).
Proof. unfold expected_action. by destruct (questionIndex <? maxQ). Qed.

(** ** One question, the loop, and the functions around it *)

Lemma terminalAction_spec env st questionIndex maxQ r st' :
  terminalAction questionIndex maxQ env st = (r, st') ->
  exists ev act,
    trace st' = trace st ++ ev
    /\ vars st' = upd_actionTaken act (vars st)
    /\ Forall question_event ev
    /\ terminal_clicks ev = [expected_selector questionIndex maxQ]
    /\ (forall u, r = Normal u -> act = expected_action questionIndex maxQ).
Proof.
  unfold terminalAction, expected_selector, expected_action, bind, try_catch, set_actionTaken,
    modify, call, ret, throw, emit.
  intros H. simpl in H.
  destruct (questionIndex <? maxQ); run_calls; simplify_eq; simpl;
    eexists _, _; (split; [rewrite <- ?app_assoc; reflexivity|]);
    (split; [reflexivity|]); (split; [repeat constructor|]);
    (split; [reflexivity|]); intros; by simplify_eq.
Qed.

Lemma processQuestion_spec env st maxQ i r st' :
  processQuestion maxQ i env st = (r, st') ->
  exists ev,
    trace st' = trace st ++ Logged (ProcessingQuestion (i + 1) maxQ) :: ev
    /\ Forall question_event ev
    /\ outer_vars (vars st') = outer_vars (vars st)
    /\ match r with
       | Normal submitted =>
           exists analysis,
             diagnosticData (vars st') =
               diagnosticData (vars st) ++
                 [{| questionIndex := i + 1; llmAnalysis := analysis;
                     actionTaken := expected_action (i + 1) maxQ |}]
             /\ submitted = ActionTaken_eqb (expected_action (i + 1) maxQ) quiz_submitted
             /\ terminal_clicks ev = [expected_selector (i + 1) maxQ]
       | Throw _ => diagnosticData (vars st') = diagnosticData (vars st)
       end.
Proof.
  unfold processQuestion. intros H.
  apply bind_inv in H as [(? & st0 & H0 & H)|(e & H0 & ->)]; [|discriminate].
  unfold log in H0. simplify_eq.
  apply bind_inv in H as [(a & st1 & H1 & H)|(e & H1 & ->)];
    (apply (io_run _ _ _ _ _ _ (analyseQuestion_io (i + 1))) in H1 as (ev1 & -> & F1));
    pose proof (Forall_analysing _ _ F1) as Q1;
    pose proof (terminal_clicks_analysing _ _ F1) as T1.
  2:{ exists ev1; simpl. rewrite <- ?app_assoc. by repeat split. }
  apply bind_inv in H as [(a' & st3 & H3 & H)|(e & H3 & ->)];
    (apply (io_run _ _ _ _ _ _ (answerQuestion_io (i + 1) a)) in H3 as (ev3 & -> & F3));
    pose proof (Forall_answering _ _ F3) as Q3;
    pose proof (terminal_clicks_answering _ _ F3) as T3;
    simpl in *.
  2:{ exists (ev1 ++ ev3); simpl. rewrite <- ?app_assoc, Forall_app. by repeat split. }
  apply bind_inv in H as [([] & st4 & H4 & H)|(e & H4 & ->)];
    apply terminalAction_spec in H4 as (ev4 & act & E4 & V4 & F4 & T4 & A4); simpl in *.
  - specialize (A4 _ eq_refl). subst act.
    unfold bind, get_vars, push, set_diagnosticData, modify, log, ret, emit in H.
    simpl in H. simplify_eq. simpl.
    exists (ev1 ++ ev3 ++ ev4 ++ [Logged (FinishedQuestion (i + 1))]).
    rewrite E4, V4. simpl. rewrite <- !app_assoc. simpl.
    rewrite !Forall_app, !terminal_clicks_app, T1, T3, T4.
    repeat split; auto.
    + by repeat constructor.
    + eexists. by repeat split.
  - exists (ev1 ++ ev3 ++ ev4). rewrite E4, V4. simpl. rewrite <- !app_assoc. simpl.
    rewrite !Forall_app. by repeat split.
Qed.

Lemma questionLoop_spec env bound : forall maxQ i st r st',
  questionLoop bound maxQ i env st = (r, st') ->
  exists ev new (started : nat),
    trace st' = trace st ++ ev
    /\ diagnosticData (vars st') = diagnosticData (vars st) ++ new
    /\ outer_vars (vars st') = outer_vars (vars st)
    /\ Forall loop_event ev
    /\ processing_indices ev = seqZ (i + 1) (Z.of_nat started)
    /\ (length new <= started <= bound)%nat
    /\ (started <> 0%nat -> i + Z.of_nat started <= maxQ)
    /\ (i < maxQ -> bound <> 0%nat -> started <> 0%nat)
    /\ questionIndex <$> new = seqZ (i + 1) (Z.of_nat (length new))
    /\ Forall (fun o => actionTaken o = expected_action (questionIndex o) maxQ) new
    /\ (forall log, r = Normal log ->
          log = diagnosticData (vars st')
          /\ length new = started
          /\ (maxQ - i <= Z.of_nat bound -> Z.of_nat started = Z.max 0 (maxQ - i))).
Proof.
  induction bound as [|bound IH]; intros maxQ i st r st' H; simpl in H.
  - unfold bind, get_vars, ret in H. simplify_eq.
    exists [], [], 0%nat. rewrite !app_nil_r. repeat split; auto; try done; try lia; try by simplify_eq.
  - destruct (i <? maxQ) eqn:Hlt.
    2:{ unfold bind, get_vars, ret in H. simplify_eq.
        exists [], [], 0%nat. rewrite !app_nil_r. apply Z.ltb_ge in Hlt.
        repeat split; auto; try done; try lia; try by simplify_eq. }
    apply Z.ltb_lt in Hlt.
    apply bind_inv in H as [(submitted & st1 & H1 & H)|(e & H1 & ->)];
      apply processQuestion_spec in H1 as (ev1 & E1 & F1 & O1 & R1);
      assert (Fl : Forall loop_event (Logged (ProcessingQuestion (i + 1) maxQ) :: ev1))
        by (constructor; [right; eauto|]; eapply Forall_impl; [exact F1|]; by left);
      assert (Pl : processing_indices (Logged (ProcessingQuestion (i + 1) maxQ) :: ev1) = [i + 1])
        by (change (processing_indices (?e :: ?l)) with (i + 1 :: processing_indices l);
            by rewrite (processing_indices_question _ F1)).
    2:{ exists (Logged (ProcessingQuestion (i + 1) maxQ) :: ev1), [], 1%nat.
        rewrite app_nil_r. repeat split; auto; try done; try lia; try by simplify_eq. }
    destruct R1 as (analysis & D1 & S1 & T1).
    rewrite expected_action_submitted in S1.
    destruct submitted.
    + unfold bind, get_vars, ret in H. injection H as <- <-.
      assert (maxQ <= i + 1) by (destruct (i + 1 <? maxQ) eqn:E; [done|by apply Z.ltb_ge in E]).
      eexists _, [_], 1%nat. rewrite E1, D1.
      repeat split; auto; try done; simpl; try lia; try by simplify_eq.
    + assert (i + 1 < maxQ) by (destruct (i + 1 <? maxQ) eqn:E; [by apply Z.ltb_lt in E|done]).
      apply IH in H as (ev & new & started & E & D & O & F & P & L & B & N & Q & A & R).
      exists ((Logged (ProcessingQuestion (i + 1) maxQ) :: ev1) ++ ev),
        ({| questionIndex := i + 1; llmAnalysis := analysis;
            actionTaken := expected_action (i + 1) maxQ |} :: new), (S started).
      rewrite E, E1, D, D1, O, <- !app_assoc, Forall_app, processing_indices_app, Pl, P.
      rewrite fmap_cons, Q. cbn [length questionIndex].
      rewrite (seqZ_cons (i + 1) (Z.of_nat (S started))) by lia.
      rewrite (seqZ_cons (i + 1) (Z.of_nat (S (length new)))) by lia.
      replace (Z.succ (i + 1)) with (i + 1 + 1) by lia.
      replace (Z.pred (Z.of_nat (S started))) with (Z.of_nat started) by lia.
      replace (Z.pred (Z.of_nat (S (length new)))) with (Z.of_nat (length new)) by lia.
      split_and!; auto; try done; try lia; try by constructor.
      intros log ->. destruct (R _ eq_refl) as (R1 & R2 & R3).
      rewrite R1, D, D1, <- app_assoc. split_and!; auto; lia.
Qed.

(** The bound of [questionLoop] does not matter once it covers the turns
    that are left. *)
Lemma questionLoop_bound env maxQ b1 : forall b2 i st,
  maxQ - i <= Z.of_nat b1 -> maxQ - i <= Z.of_nat b2 ->
  questionLoop b1 maxQ i env st = questionLoop b2 maxQ i env st.
Proof.
  induction b1 as [|b1 IH]; intros [|b2] i st H1 H2; simpl; try done.
  - destruct (i <? maxQ) eqn:Hlt; [apply Z.ltb_lt in Hlt; lia|done].
  - destruct (i <? maxQ) eqn:Hlt; [apply Z.ltb_lt in Hlt; lia|done].
  - destruct (i <? maxQ) eqn:Hlt; [|done]. unfold bind.
    destruct (processQuestion maxQ i env st) as [[[|]|e] st1]; try done.
    apply IH; lia.
Qed.

Lemma count_app p ev1 ev2 : count p (ev1 ++ ev2) = (count p ev1 + count p ev2)%nat.
Proof. induction ev1 as [|e ev1 IH]; simpl; [done|]. rewrite IH. lia. Qed.

Lemma handleDiagnostic_spec env maxQ st r st' :
  handleDiagnostic maxQ env st = (r, st') ->
  exists ev (started : nat),
    trace st' = trace st ++ Logged (StartingDiagnostic maxQ) :: ev
    /\ outer_vars (vars st') = outer_vars (vars st)
    /\ Forall diagnostic_event ev
    /\ processing_indices ev = seqZ 1 (Z.of_nat started)
    /\ (length (diagnosticData (vars st')) <= started <= Z.to_nat maxQ)%nat
    /\ ((exists v post, ev = Called Mkdir (Fulfilled v) :: post) -> 0 < maxQ -> started <> 0%nat)
    /\ questionIndex <$> diagnosticData (vars st')
        = seqZ 1 (Z.of_nat (length (diagnosticData (vars st'))))
    /\ Forall (fun o => actionTaken o = expected_action (questionIndex o) maxQ)
         (diagnosticData (vars st'))
    /\ (forall log, r = Normal log ->
          log = diagnosticData (vars st')
          /\ length log = Z.to_nat maxQ).
Proof.
  unfold handleDiagnostic, bind, log, set_diagnosticData, modify, try_catch, call, throw, emit.
  simpl. intros H.
  destruct (respond env _ Mkdir) as [v|m] eqn:Hmk.
  2:{ injection H as <- <-. simpl.
      exists [Called Mkdir (Rejected m)], 0%nat.
      split_and!; auto; try done; try lia.
      - by rewrite <- app_assoc.
      - constructor; [right; eauto|constructor].
      - intros (v & post & ?). simplify_eq. }
  destruct (questionLoop _ _ _ _ _) as [r1 st1] eqn:Hloop.
  apply questionLoop_spec in Hloop
    as (ev & new & started & E & D & O & F & P & L & B & N & Q & A & R).
  simpl in *.
  assert (r1 = r /\ st1 = st') as [-> ->] by (destruct r1; by injection H as <- <-).
  exists (Called Mkdir (Fulfilled v) :: ev), started.
  rewrite E, D, O, <- !app_assoc. simpl.
  split_and!; auto; try done; try lia.
  - constructor; [right; eauto|]. eapply Forall_impl; [exact F|]. by left.
  - intros log ->. destruct (R _ eq_refl) as (R1 & R2 & R3).
    rewrite R1, D. split; [done|]. lia.
Qed.

Lemma loginToCanvas_spec env st r st' :
  loginToCanvas env st = (r, st') ->
  exists ev,
    trace st' = trace st ++ ev
    /\ loginResult (vars st') = loginResult (vars st)
    /\ Forall login_event ev
    /\ match r with
       | Normal _ => closes ev = 0%nat /\ handle_exists ev = true
       | Throw _ => closes ev = if handle_exists ev then 1%nat else 0%nat
       end.
Proof.
  unfold loginToCanvas, bind, try_catch, set_session, set_browser, modify, get_vars, call,
    ret, throw, emit.
  intros H. simpl in H.
  run_calls; simpl in H; run_calls; simplify_eq; simpl;
    eexists; (split; [rewrite <- ?app_assoc; reflexivity|]);
    (split; [reflexivity|]); (split; [repeat constructor|]); try done.
Qed.

Lemma diagnostic_event_cases e :
  diagnostic_event e ->
  (exists c r, e = Called c r /\ (question_call c = true \/ c = Mkdir))
  \/ (exists i, e = Logged (FinishedQuestion i))
  \/ (exists j m, e = Logged (ProcessingQuestion j m)).
Proof.
  intros [[H|(j & m & ->)]|(r & ->)]; eauto 8.
  destruct e as [c r|[]]; simpl in H; try done; eauto 8.
Qed.

Lemma diagnostic_quiz_event e : diagnostic_event e -> quiz_event e.
Proof.
  intros H. apply diagnostic_event_cases in H
    as [(c & r & -> & [H| ->])|[(i & ->)|(j & m & ->)]]; try done.
  by destruct c.
Qed.

Lemma count_quiz_events p ev :
  Forall (fun e => p e = false) ev -> count p ev = 0%nat.
Proof. induction 1 as [|e ev He _ IH]; simpl; [done|]. by rewrite He, IH. Qed.

Lemma closes_quiz_events ev : Forall quiz_event ev -> closes ev = 0%nat.
Proof.
  intros H. apply count_quiz_events. eapply Forall_impl; [exact H|]. by intros e [? ?].
Qed.

Lemma handle_exists_quiz_events ev : Forall quiz_event ev -> handle_exists ev = false.
Proof.
  induction 1 as [|e ev [_ He] _ IH]; [done|]. unfold handle_exists in *. simpl.
  by rewrite He, IH.
Qed.

Lemma handle_exists_app ev1 ev2 :
  handle_exists (ev1 ++ ev2) = handle_exists ev1 || handle_exists ev2.
Proof. apply existsb_app. Qed.

Lemma loop_entered_diagnostic ev : Forall diagnostic_event ev -> loop_entered ev = false.
Proof.
  induction 1 as [|e ev He _ IH]; [done|].
  apply diagnostic_event_cases in He
    as [(c & r & -> & _)|[(i & ->)|(j & m & ->)]]; done.
Qed.

Lemma scrapeMaxQuestions_spec env st :
  let reply := respond env (trace st) (TextContent QUESTIONS_COUNT_SELECTOR 10000) in
  exists actualMaxQuestions,
    scrapeMaxQuestions env st
      = (Normal actualMaxQuestions,
         emit (Called (TextContent QUESTIONS_COUNT_SELECTOR 10000) reply) st)
    /\ 0 < actualMaxQuestions
    /\ (discovery_fails env reply -> actualMaxQuestions = 1).
Proof.
  unfold scrapeMaxQuestions, try_catch, bind, call, ret, discovery_fails. simpl.
  destruct (respond env (trace st) _) as [text|m]; simpl.
  - destruct (js_parseInt env text) as [z|]; [|exists 1; split_and!; auto; lia].
    destruct (z <=? 0) eqn:Hz; [apply Z.leb_le in Hz|apply Z.leb_gt in Hz].
    + exists 1. split_and!; auto; lia.
    + exists z. split_and!; auto; lia.
  - exists 1. split_and!; auto; lia.
Qed.

Lemma diagnostic_not_discovery ev reply :
  Forall diagnostic_event ev ->
  Called (TextContent QUESTIONS_COUNT_SELECTOR 10000) reply ∉ ev.
Proof.
  intros F Hin. rewrite Forall_forall in F. apply F in Hin.
  apply diagnostic_event_cases in Hin
    as [(c & r & ? & [H| ->])|[(i & ?)|(j & m & ?)]]; simplify_eq; done.
Qed.

Lemma diagnostic_not_starting ev n :
  Forall diagnostic_event ev -> Logged (StartingDiagnostic n) ∉ ev.
Proof.
  intros F Hin. rewrite Forall_forall in F. apply F in Hin.
  apply diagnostic_event_cases in Hin
    as [(c & r & ? & _)|[(i & ?)|(j & m & ?)]]; simplify_eq.
Qed.

Lemma takeQuiz_spec env st r st' :
  takeQuiz env st = (r, st') ->
  exists ev,
    trace st' = trace st ++ ev
    /\ loginResult (vars st') = loginResult (vars st)
    /\ Forall quiz_event ev
    /\ forall reply,
         Called (TextContent QUESTIONS_COUNT_SELECTOR 10000) reply ∈ ev ->
         discovery_fails env reply ->
         (exists r1, Called (Click START_QUIZ_SELECTOR 20000) r1 ∈ ev)
         /\ (forall n, Logged (StartingDiagnostic n) ∈ ev -> n = 1)
         /\ (processing_indices ev = [] \/ processing_indices ev = [1])
         /\ (loop_entered ev = true -> processing_indices ev = [1]).
Proof.
  unfold takeQuiz. intros H.
  apply bind_inv in H as [(v0 & st0 & H0 & H)|(e & H0 & ->)];
    apply call_inv in H0 as [-> H0].
  2:{ eexists [_]. split_and!; try done; [by repeat constructor|].
      intros reply Hin. apply list_elem_of_singleton in Hin. done. }
  set (e0 := Called (WaitForSelector START_QUIZ_SELECTOR 20000) _) in *.
  destruct (scrapeMaxQuestions_spec env (emit e0 st)) as (n & Hs & Hpos & Hn).
  apply bind_inv in H as [(n' & st1 & H1 & H)|(e & H1 & ->)];
    rewrite Hs in H1; [|discriminate]. injection H1 as <- <-.
  set (e1 := Called (TextContent QUESTIONS_COUNT_SELECTOR 10000) _) in *.
  apply bind_inv in H as [(v2 & st2 & H2 & H)|(e & H2 & ->)];
    apply call_inv in H2 as [-> H2].
  2:{ eexists [e0; e1; _]. simpl. rewrite <- !app_assoc.
      split_and!; try done; [by repeat constructor|].
      intros reply Hin Hf. split_and!; auto; try done.
      - eexists. do 2 apply list_elem_of_further. apply list_elem_of_here.
      - intros k Hk. subst e0 e1. rewrite !elem_of_cons, elem_of_nil in Hk.
        repeat (destruct Hk as [Hk|Hk]; [discriminate Hk|]). done. }
  set (e2 := Called (Click START_QUIZ_SELECTOR 20000) _) in *.
  apply bind_inv in H as [(v3 & st3 & H3 & H)|(e & H3 & ->)];
    apply call_inv in H3 as [-> H3].
  2:{ eexists [e0; e1; e2; _]. simpl. rewrite <- !app_assoc.
      split_and!; try done; [by repeat constructor|].
      intros reply Hin Hf. split_and!; auto; try done.
      - eexists. do 2 apply list_elem_of_further. apply list_elem_of_here.
      - intros k Hk. subst e0 e1 e2. rewrite !elem_of_cons, elem_of_nil in Hk.
        repeat (destruct Hk as [Hk|Hk]; [discriminate Hk|]). done. }
  set (e3 := Called (WaitForLoadState 20000) _) in *.
  assert (exists r4 st4, handleDiagnostic n env (emit e3 (emit e2 (emit e1 (emit e0 st)))) = (r4, st4)
                         /\ st' = st4) as (r4 & st4 & H4 & ->).
  { apply bind_inv in H as [(v4 & st4 & H4 & H)|(e & H4 & ->)]; eauto.
    unfold ret in H. simplify_eq. eauto. }
  clear H.
  apply handleDiagnostic_spec in H4 as (ev & started & E & O & F & P & L & N & Q & A & R).
  injection O as O _ _. simpl in *.
  exists ([e0; e1; e2; e3] ++ Logged (StartingDiagnostic n) :: ev).
  rewrite E, <- !app_assoc. simpl.
  assert (Fq : Forall quiz_event ev).
  { eapply Forall_impl; [exact F|]. apply diagnostic_quiz_event. }
  split_and!; try done; [by repeat constructor|].
  intros reply Hin Hf.
  assert (n = 1) as ->.
  { apply Hn. rewrite !elem_of_cons in Hin.
    destruct Hin as [?|[Hin|[?|[?|[?|Hin]]]]]; try done.
    - by injection Hin as ->.
    - by apply diagnostic_not_discovery in Hin. }
  repeat match goal with
         | |- context [processing_indices ?l] =>
             progress change (processing_indices l) with (processing_indices ev)
         end.
  rewrite P.
  split_and!.
  - eexists. do 2 apply list_elem_of_further. apply list_elem_of_here.
  - intros k Hk. rewrite !elem_of_cons in Hk.
    destruct Hk as [?|[?|[?|[?|[Hk|Hk]]]]]; try done.
    + by injection Hk.
    + by apply diagnostic_not_starting in Hk.
  - destruct started as [|[|?]]; [by left|by right|simpl in L; lia].
  - intros Hloop. destruct started as [|[|?]]; [|done|simpl in L; lia].
    exfalso.
    change (loop_entered (Logged (StartingDiagnostic 1) :: ev) = true) in Hloop.
    destruct ev as [|e ev']; [done|].
    pose proof (loop_entered_diagnostic _ F) as Hno.
    destruct e as [[] [v|m]|l]; simpl in Hloop, Hno; try congruence.
    apply N; [eauto|lia|done].
Qed.

Lemma runCanvasScraper_completion env st :
  fst (runCanvasScraper env st) = Normal tt
  \/ exists message, fst (runCanvasScraper env st) = Throw (Rejection message).
Proof.
  destruct (runCanvasScraper env st) as [r st'] eqn:H. simpl.
  unfold runCanvasScraper in H.
  apply bind_inv in H as [([] & st0 & _ & H)|(e & H0 & _)]; [|discriminate].
  apply try_finally_inv in H as (r1 & st1 & r2 & H1 & H2 & ->).
  match type of H1 with try_catch ?m _ _ _ = _ =>
    pose proof (try_catch_ret_tt m env st0) as Hr end.
  rewrite H1 in Hr. simpl in Hr. subst r1.
  destruct r2 as [[]|e]; [by left|right].
  unfold bind, get_vars, call, ret in H2.
  destruct (loginResult (vars st1)); [|discriminate].
  destruct (respond env (trace st1) BrowserClose); simplify_eq. eauto.
Qed.

Lemma for_of_selectOption env questionIndex labels :
  option_screenshots_captured env questionIndex ->
  forall st, exists ev,
    for_of (VStr <$> labels) (selectOption questionIndex) env st
      = (Normal tt, {| trace := trace st ++ ev; vars := vars st |})
    /\ clicks ev = (fun text => (mcOptionLabelSelector text, 10000)) <$> labels.
Proof.
  intros Hshot. induction labels as [|text labels IH]; intros st.
  - exists []. simpl. unfold ret. by rewrite state_eta.
  - rewrite fmap_cons. cbn [for_of]. unfold bind at 1.
    assert (exists reply ev1,
      selectOption questionIndex (VStr text) env st
        = (Normal tt, {| trace := trace st ++ Called (Click (mcOptionLabelSelector text) 10000) reply :: ev1;
                         vars := vars st |})
      /\ clicks ev1 = []) as (reply & ev1 & -> & C1).
    { unfold selectOption, try_catch, bind, call, ret, emit. simpl.
      destruct (respond env (trace st) _) as [v|m] eqn:Hc.
      - by exists (Fulfilled v), [].
      - simpl. destruct (Hshot (trace st ++ [Called (Click (mcOptionLabelSelector text) 10000) (Rejected m)]) text)
          as [v ->]. simpl.
        eexists (Rejected m), [_]. by rewrite <- app_assoc. }
    destruct (IH {| trace := trace st ++ Called (Click (mcOptionLabelSelector text) 10000) reply :: ev1;
                    vars := vars st |}) as (ev2 & -> & C2).
    exists ((Called (Click (mcOptionLabelSelector text) 10000) reply :: ev1) ++ ev2).
    simpl. rewrite <- app_assoc. split; [done|].
    rewrite clicks_app, C2.
    change (clicks (Called (Click ?s ?t) ?r :: ?l)) with ((s, t) :: clicks l).
    by rewrite C1.
Qed.

Lemma takeQuiz_events env stq evq :
  trace (snd (takeQuiz env stq)) = trace stq ++ evq ->
  Forall quiz_event evq
  /\ forall reply,
       Called (TextContent QUESTIONS_COUNT_SELECTOR 10000) reply ∈ evq ->
       discovery_fails env reply ->
       (exists r1, Called (Click START_QUIZ_SELECTOR 20000) r1 ∈ evq)
       /\ (forall n, Logged (StartingDiagnostic n) ∈ evq -> n = 1)
       /\ (processing_indices evq = [] \/ processing_indices evq = [1])
       /\ (loop_entered evq = true -> processing_indices evq = [1]).
Proof.
  intros E. destruct (takeQuiz env stq) as [r st'] eqn:H. simpl in E.
  apply takeQuiz_spec in H as (ev' & E' & _ & F & H).
  rewrite E in E'. apply app_inv_head in E'. by subst ev'.
Qed.

Lemma Forall_login_setup ev : Forall login_event ev -> Forall setup_event ev.
Proof.
  intros H. eapply Forall_impl; [exact H|]. intros [c r|l]; simpl; auto.
Qed.

Lemma processing_indices_setup ev : Forall setup_event ev -> processing_indices ev = [].
Proof.
  induction 1 as [|e ev He _ IH]; [done|].
  change (processing_indices (e :: ev))
    with (match processing_index e with Some j => j :: processing_indices ev
          | None => processing_indices ev end).
  rewrite IH. by destruct e as [c r|[]].
Qed.

Lemma loop_entered_setup pre ev :
  Forall setup_event pre -> loop_entered (pre ++ ev) = loop_entered ev.
Proof.
  induction 1 as [|e pre He _ IH]; [done|].
  destruct e as [c r|l]; [|done]. simpl. exact IH.
Qed.

Lemma loop_entered_close ev r :
  loop_entered (ev ++ [Called BrowserClose r]) = loop_entered ev.
Proof.
  induction ev as [|e ev IH]; [done|].
  destruct e as [c rr|[n|j m|j]]; simpl; try exact IH.
  destruct ev as [|[[] [v|m]|l] ev']; simpl in *; try done; exact IH.
Qed.

Lemma setup_not_discovery pre reply :
  Forall setup_event pre ->
  Called (TextContent QUESTIONS_COUNT_SELECTOR 10000) reply ∉ pre.
Proof.
  intros F Hin. rewrite Forall_forall in F. apply F in Hin. by destruct Hin.
Qed.

Lemma setup_not_logged pre l : Forall setup_event pre -> Logged l ∉ pre.
Proof. intros F Hin. rewrite Forall_forall in F. by apply F in Hin. Qed.

(** A whole run: what precedes the quiz, the quiz, and the close of the
    [finally]. *)
Lemma runCanvasScraper_shape env st :
  exists pre evq post,
    trace (snd (runCanvasScraper env st)) = trace st ++ pre ++ evq ++ post
    /\ Forall setup_event pre
    /\ ((evq = [] /\ post = []
         /\ closes pre = if handle_exists pre then 1%nat else 0%nat)
        \/ (closes pre = 0%nat /\ handle_exists pre = true
            /\ (exists r, post = [Called BrowserClose r])
            /\ exists stq, trace (snd (takeQuiz env stq)) = trace stq ++ evq)).
Proof.
  destruct (runCanvasScraper env st) as [r st'] eqn:H. simpl.
  unfold runCanvasScraper in H.
  apply bind_inv in H as [([] & st0 & H0 & H)|(e & H0 & _)]; [|discriminate].
  unfold set_loginResult, modify in H0. injection H0 as <-.
  apply try_finally_inv in H as (r1 & st1 & r2 & H1 & H2 & _).
  unfold bind, get_vars, ret in H2.
  unfold try_catch in H1.
  match type of H1 with context [bind ?m ?f env ?s] =>
    destruct (bind m f env s) as [r0 st2] eqn:Hbody;
    assert (st1 = st2) as -> by (destruct r0; unfold ret in H1; by simplify_eq)
  end.
  clear H1.
  apply bind_inv in Hbody as [(v & st3 & Hm & Hbody)|(e & Hm & ->)];
    apply call_inv in Hm as [-> Hm].
  2:{ simpl in H2. injection H2 as _ <-.
      eexists [_], [], []. simpl. split; [done|]. split; [repeat constructor; by left|].
      by left. }
  set (e0 := Called Mkdir _) in *.
  assert (S0 : setup_event e0) by (by left).
  apply bind_inv in Hbody as [(result & st4 & Hl & Hbody)|(e & Hl & ->)];
    apply loginToCanvas_spec in Hl as (evl & El & Ll & Fl & Cl); simpl in *.
  2:{ rewrite Ll in H2. simpl in H2. injection H2 as _ <-.
      exists (e0 :: evl), [], []. rewrite El, <- !app_assoc, app_nil_r.
      split; [done|]. split; [constructor; auto using Forall_login_setup|].
      left. split_and!; first [done|exact Cl]. }
  destruct Cl as [Cl Xl].
  apply bind_inv in Hbody as [([] & st5 & Hset & Hbody)|(e & Hset & _)]; [|discriminate].
  unfold set_loginResult, modify in Hset. injection Hset as <-.
  pose proof Hbody as Hq.
  apply takeQuiz_spec in Hbody as (evq & Eq & Lq & Fq & _). simpl in *.
  rewrite Lq in H2. simpl in H2.
  destruct (call BrowserClose env st2) as [rc st6] eqn:Hc.
  apply call_inv in Hc as [-> _].
  assert (st' = emit (Called BrowserClose (respond env (trace st2) BrowserClose)) st2)
    as -> by (destruct rc; by simplify_eq).
  eexists (e0 :: evl), evq, [_]. simpl. rewrite Eq, El, <- !app_assoc. simpl.
  split; [done|]. split; [constructor; auto using Forall_login_setup|].
  right. split_and!; eauto.
  eexists. rewrite Hq. simpl. exact Eq.
Qed.


(** ** The properties of the specification *)

(** C1, as amended.  [handleDiagnostic] hands the outcome log to its caller
    only when it returns, and then the log is the whole of [diagnosticData],
    with one entry for each of the [maxQ] questions; a run aborted by a fatal
    step completes by rethrowing the error (line 226), which carries no log.
    [runCanvasScraper] drops what [handleDiagnostic] returns and never
    returns a log itself: it completes with no value, or with the rejection
    of [browser.close()]. *)
Theorem log_returned_on_completion_only env maxQ st :
  match fst (handleDiagnostic maxQ env st) with
  | Normal log =>
      log = diagnosticData (vars (snd (handleDiagnostic maxQ env st)))
      /\ length log = Z.to_nat maxQ
  | Throw _ => True
  end
  /\ (fst (runCanvasScraper env st) = Normal tt
      \/ exists message, fst (runCanvasScraper env st) = Throw (Rejection message)).
Proof.
  split.
  - destruct (handleDiagnostic maxQ env st) as [[log|e] st'] eqn:H; simpl; [|done].
    apply handleDiagnostic_spec in H as (ev & started & E & O & F & P & L & N & Q & A & R).
    exact (R _ eq_refl).
  - apply runCanvasScraper_completion.
Qed.

(** C1 does not hold as stated.  Two questions, the click on Submit Quiz is
    rejected on the second: [handleDiagnostic] throws, the entry built for
    question 1 stays behind in [diagnosticData], and [runCanvasScraper]
    completes with no value. *)
Lemma partial_log_is_not_returned :
  fst (handleDiagnostic 2 two_questions_submit_rejected initial)
    = Throw (FailedToClickSubmit 2 (Rejection "Timeout 15000ms exceeded"))
  /\ questionIndex <$> diagnosticData (vars (snd (handleDiagnostic 2 two_questions_submit_rejected initial)))
    = [1]
  /\ fst (runCanvasScraper two_questions_submit_rejected initial) = Normal tt
  /\ questionIndex <$> diagnosticData (vars (snd (runCanvasScraper two_questions_submit_rejected initial)))
    = [1].
Proof. vm_compute. repeat split. Qed.

(** C2, as amended.  For a choice-type analysis whose [correctAnswer] is
    [null] and whose [options] is an array that starts with a string, the
    fallback of lines 107-120 sets [correctAnswer] to that first option: the
    string itself for [multiple-choice-single] and [multiple-choice], a
    one-element array for [multiple-choice-multiple].  The only click on an
    option that is then attempted is the click on that first option (for the
    single types provided the option is not the empty string, which line 124
    reads as no answer). *)
Theorem fallback_selects_first_option env st questionIndex props questionType first rest :
  props !! "correctAnswer" = Some VNull ->
  props !! "options" = Some (VArr (VStr first :: rest)) ->
  props !! "questionType" = Some (VStr questionType) ->
  (questionType = "multiple-choice-single" \/ questionType = "multiple-choice" ->
     applyFallback (VObj props) env st
       = (Normal (VObj (<["correctAnswer" := VStr first]> props)), st)
     /\ (first <> "" ->
         exists ev,
           trace (snd (answerQuestion questionIndex (VObj props) env st)) = trace st ++ ev
           /\ clicks ev = [(mcOptionLabelSelector first, 15000)]))
  /\ (questionType = "multiple-choice-multiple" ->
     applyFallback (VObj props) env st
       = (Normal (VObj (<["correctAnswer" := VArr [VStr first]]> props)), st)
     /\ exists ev,
          trace (snd (answerQuestion questionIndex (VObj props) env st)) = trace st ++ ev
          /\ clicks ev = [(mcOptionLabelSelector first, 10000)]).
Proof.
  intros Ha Ho Ht.
  assert (Hfb : forall v,
    (<["correctAnswer" := v]> props) !! "correctAnswer" = Some v
    /\ (<["correctAnswer" := v]> props) !! "questionType" = Some (VStr questionType)).
  { intros v. split; [apply lookup_insert_eq|]. by rewrite lookup_insert_ne. }
  split.
  - intros Hq.
    assert (applyFallback (VObj props) env st
            = (Normal (VObj (<["correctAnswer" := VStr first]> props)), st)) as Hf.
    { unfold applyFallback, bind, get_prop, ret. simpl.
      rewrite !Ha, !Ho, !Ht. simpl. by destruct Hq as [-> | ->]. }
    split; [done|]. intros Hne.
    assert (Htruthy : negb (String.eqb first "") = true).
    { apply negb_true_iff, String.eqb_neq. done. }
    unfold answerQuestion. unfold bind at 1. rewrite Hf.
    destruct (Hfb (VStr first)) as [Hc Hty].
    unfold interact, bind, get_prop, ret. simpl. rewrite ?Hc, ?Hty. simpl.
    rewrite ?Hc, ?Hty.
    destruct Hq as [-> | ->]; simpl; rewrite Htruthy;
      unfold selectSingle, try_catch, bind, call, ret, emit; simpl;
      (destruct (respond env (trace st) _) as [v|m]; simpl; [by eexists [_]|]);
      (destruct (respond env _ (Screenshot _)) as [v|m']; simpl;
       eexists [_; _]; by rewrite <- app_assoc).
  - intros ->.
    assert (applyFallback (VObj props) env st
            = (Normal (VObj (<["correctAnswer" := VArr [VStr first]]> props)), st)) as Hf.
    { unfold applyFallback, bind, get_prop, ret. simpl.
      by rewrite !Ha, !Ho, !Ht. }
    split; [done|].
    unfold answerQuestion. unfold bind at 1. rewrite Hf.
    destruct (Hfb (VArr [VStr first])) as [Hc Hty].
    unfold interact, bind, get_prop, ret. simpl. rewrite ?Hc, ?Hty. simpl.
    rewrite ?Hc, ?Hty. simpl.
    unfold try_catch, bind, call, ret, throw, emit; simpl.
    destruct (respond env (trace st) _) as [v|m]; simpl; [by eexists [_]|].
    destruct (respond env _ (Screenshot _)) as [v|m']; simpl;
      eexists [_; _]; by rewrite <- app_assoc.
Qed.

(** With [correctAnswer] null and options A, B, C on a single-choice
    question, the one click attempted is on A. *)
Lemma fallback_selects_first_option_witness :
  exists ev,
    trace (snd (answerQuestion 1 (VObj (single_props (Some VNull) ABC)) three_questions initial))
      = trace initial ++ ev
    /\ clicks ev = [(mcOptionLabelSelector "A", 15000)].
Proof.
  destruct (fallback_selects_first_option three_questions initial 1
              (single_props (Some VNull) ABC) "multiple-choice-single" "A"
              [VStr "B"; VStr "C"] eq_refl eq_refl eq_refl) as [Hsingle _].
  destruct (Hsingle (or_introl eq_refl)) as [_ Hclick].
  apply Hclick. discriminate.
Defined.

(** C2 does not hold as stated.  With options A, B, C, an empty
    [correctAnswer] and a missing [correctAnswer] on a single-choice question,
    and an empty array on a multi-choice one, all leave the analysis as it is
    and no option is clicked: line 108 tests [=== null]. *)
Lemma no_fallback_for_empty_or_missing_answer :
  clicks (trace (snd (answerQuestion 1 (VObj (single_props (Some (VStr "")) ABC))
                        three_questions initial))) = []
  /\ clicks (trace (snd (answerQuestion 1 (VObj (single_props None ABC))
                           three_questions initial))) = []
  /\ clicks (trace (snd (answerQuestion 1 (VObj (<["correctAnswer" := VArr []]> multi_props))
                           three_questions initial))) = []
  /\ fst (applyFallback (VObj (single_props (Some (VStr "")) ABC)) three_questions initial)
     = Normal (VObj (single_props (Some (VStr "")) ABC))
  /\ fst (applyFallback (VObj (single_props None ABC)) three_questions initial)
     = Normal (VObj (single_props None ABC))
  /\ fst (applyFallback (VObj (<["correctAnswer" := VArr []]> multi_props))
            three_questions initial)
     = Normal (VObj (<["correctAnswer" := VArr []]> multi_props)).
Proof. vm_compute. repeat split. Qed.

(** C3.  A question of index [questionIndex] out of [maxQ] that is processed
    to the end makes exactly one click on Next or Submit Quiz: on Next exactly
    when [questionIndex < maxQ], on Submit Quiz exactly when
    [questionIndex = maxQ]. *)
Theorem terminal_action_by_index env st maxQ questionIndex submitted st' :
  1 <= questionIndex <= maxQ ->
  processQuestion maxQ (questionIndex - 1) env st = (Normal submitted, st') ->
  exists ev,
    trace st' = trace st ++ ev
    /\ (terminal_clicks ev = [NEXT_QUESTION_BUTTON_SELECTOR] <-> questionIndex < maxQ)
    /\ (terminal_clicks ev = [SUBMIT_QUIZ_BUTTON_SELECTOR] <-> questionIndex = maxQ).
Proof.
  intros Hq H.
  apply processQuestion_spec in H as (ev & E & F & O & (analysis & D & S & T)).
  replace (questionIndex - 1 + 1) with questionIndex in * by lia.
  exists (Logged (ProcessingQuestion questionIndex maxQ) :: ev).
  split; [done|].
  change (terminal_clicks (_ :: ev)) with (terminal_clicks ev).
  rewrite T. unfold expected_selector.
  destruct (questionIndex <? maxQ) eqn:Hlt;
    [apply Z.ltb_lt in Hlt|apply Z.ltb_ge in Hlt]; split; split; try done; try lia.
Qed.

(** Question 1 of 3 clicks Next; over the whole run of three questions the
    clicks are Next, Next, Submit Quiz. *)
Lemma terminal_action_by_index_witness :
  (exists ev,
     trace (snd (processQuestion 3 0 three_questions initial)) = trace initial ++ ev
     /\ (terminal_clicks ev = [NEXT_QUESTION_BUTTON_SELECTOR] <-> 1 < 3)
     /\ (terminal_clicks ev = [SUBMIT_QUIZ_BUTTON_SELECTOR] <-> 1 = 3))
  /\ terminal_clicks (trace (snd (handleDiagnostic 3 three_questions initial)))
     = [NEXT_QUESTION_BUTTON_SELECTOR; NEXT_QUESTION_BUTTON_SELECTOR;
        SUBMIT_QUIZ_BUTTON_SELECTOR].
Proof.
  split.
  - apply (terminal_action_by_index three_questions initial 3 1 false
             (snd (processQuestion 3 0 three_questions initial))).
    + lia.
    + vm_compute. reflexivity.
  - vm_compute. reflexivity.
Defined.

(** C4.  The code misses what the claim says, and what its own comment of
    line 136 says: go on with the other answers when the click on one fails.
    Each click is in a [try] of its own, but the screenshot of line 135 is
    awaited inside the [catch] with no guard.  Here the answers are B and C,
    the click on B is rejected and so is that screenshot: its error leaves the
    [for ... of], C is never tried, and the question throws before any click
    on Next. *)
Lemma rejected_screenshot_cancels_remaining_clicks :
  fst (answerQuestion 1 (VObj multi_props) multi_env_no_screenshot initial)
    = Throw (Rejection "Timeout 15000ms exceeded")
  /\ clicks (trace (snd (answerQuestion 1 (VObj multi_props) multi_env_no_screenshot initial)))
    = [(mcOptionLabelSelector "B", 10000)]
  /\ fst (processQuestion 3 0 multi_env_no_screenshot initial)
    = Throw (Rejection "Timeout 15000ms exceeded")
  /\ terminal_clicks (trace (snd (processQuestion 3 0 multi_env_no_screenshot initial))) = [].
Proof. vm_compute. repeat split. Qed.

(** C5.  However [handleDiagnostic] ends, [diagnosticData] has at most
    [maxQ] entries, and the entry at position [i] (from 0) has index
    [i + 1]. *)
Theorem outcome_log_indices env maxQ st :
  let log := diagnosticData (vars (snd (handleDiagnostic maxQ env st))) in
  (length log <= Z.to_nat maxQ)%nat
  /\ forall (i : nat) o, log !! i = Some o -> questionIndex o = Z.of_nat i + 1.
Proof.
  destruct (handleDiagnostic maxQ env st) as [r st'] eqn:H. simpl.
  apply handleDiagnostic_spec in H as (ev & started & E & O & F & P & L & N & Q & A & R).
  split; [lia|]. intros i o Hi.
  assert (Hq : (questionIndex <$> diagnosticData (vars st')) !! i = Some (questionIndex o))
    by (by rewrite list_lookup_fmap, Hi).
  rewrite Q in Hq. apply lookup_seqZ in Hq. lia.
Qed.

(** C6.  When the read of the questions count is rejected, or its text
    parses to NaN or to a number that is not positive, [actualMaxQuestions]
    is 1 and nothing is thrown; over the whole run of [runCanvasScraper], the
    run goes on to click Take the Quiz, [handleDiagnostic] is only ever
    started for 1 question, and its loop starts question 1 and no other:
    exactly once when the loop is entered. *)
Theorem discovery_failure_defaults_to_one env reply :
  discovery_fails env reply ->
  (forall st,
     respond env (trace st) (TextContent QUESTIONS_COUNT_SELECTOR 10000) = reply ->
     scrapeMaxQuestions env st
       = (Normal 1, emit (Called (TextContent QUESTIONS_COUNT_SELECTOR 10000) reply) st))
  /\ (forall st ev,
        trace (snd (runCanvasScraper env st)) = trace st ++ ev ->
        Called (TextContent QUESTIONS_COUNT_SELECTOR 10000) reply ∈ ev ->
        (exists r1, Called (Click START_QUIZ_SELECTOR 20000) r1 ∈ ev)
        /\ (forall n, Logged (StartingDiagnostic n) ∈ ev -> n = 1)
        /\ (processing_indices ev = [] \/ processing_indices ev = [1])
        /\ (loop_entered ev = true -> processing_indices ev = [1])).
Proof.
  intros Hf. split.
  - intros st Hr. destruct (scrapeMaxQuestions_spec env st) as (n & Hs & _ & Hn).
    simpl in *. rewrite Hr in *. by rewrite Hs, (Hn Hf).
  - intros st ev E Hin.
    destruct (runCanvasScraper_shape env st) as (pre & evq & post & E' & Fpre & Hshape).
    rewrite E in E'. apply app_inv_head in E'. subst ev.
    destruct Hshape as [(-> & -> & _)|(_ & _ & [r ->] & [stq Hq])].
    { rewrite !app_nil_r in Hin. by apply setup_not_discovery in Hin. }
    apply takeQuiz_events in Hq as [_ Hq].
    rewrite !elem_of_app, list_elem_of_singleton in Hin.
    destruct Hin as [Hin|[Hin|Hin]];
      [by apply setup_not_discovery in Hin| |discriminate Hin].
    destruct (Hq reply Hin Hf) as ([r1 Ha] & Hb & Hc & Hd).
    rewrite !processing_indices_app, (processing_indices_setup _ Fpre), app_nil_r.
    rewrite loop_entered_setup, loop_entered_close by done.
    split_and!; auto.
    + exists r1. rewrite !elem_of_app. auto.
    + intros n Hn. rewrite !elem_of_app, list_elem_of_singleton in Hn.
      destruct Hn as [Hn|[Hn|Hn]];
        [by apply setup_not_logged in Hn|by apply Hb|discriminate Hn].
Qed.

(** The landing page shows a count that is not a number. *)
Lemma discovery_failure_defaults_to_one_witness :
  scrapeMaxQuestions count_unreadable initial
    = (Normal 1,
       emit (Called (TextContent QUESTIONS_COUNT_SELECTOR 10000) (Fulfilled (Some "n/a"))) initial)
  /\ processing_indices (trace (snd (runCanvasScraper count_unreadable initial))) = [1].
Proof.
  destruct (discovery_failure_defaults_to_one count_unreadable (Fulfilled (Some "n/a")) I)
    as [Hscrape Hrun].
  split.
  - apply Hscrape. reflexivity.
  - destruct (Hrun initial (trace (snd (runCanvasScraper count_unreadable initial))) eq_refl)
      as (_ & _ & _ & Hone).
    + apply (list_elem_of_lookup_2 _ 11%nat). vm_compute. reflexivity.
    + apply Hone. vm_compute. reflexivity.
Defined.

(** C7.  Over a whole run of [runCanvasScraper], [browser.close()] is
    called exactly once when [connectOverCDP] fulfilled, that is when there
    is a browser to close, and not at all otherwise; it is never called
    twice. *)
Theorem browser_closed_exactly_once env st :
  exists ev,
    trace (snd (runCanvasScraper env st)) = trace st ++ ev
    /\ closes ev = if handle_exists ev then 1%nat else 0%nat.
Proof.
  destruct (runCanvasScraper_shape env st) as (pre & evq & post & E & Fpre & Hshape).
  exists (pre ++ evq ++ post). split; [done|].
  destruct Hshape as [(-> & -> & C)|(C & X & [r ->] & [stq Hq])].
  - by rewrite !app_nil_r.
  - apply takeQuiz_events in Hq as [Fq _].
    unfold closes. rewrite !count_app, !handle_exists_app, X.
    fold (closes pre) (closes evq). by rewrite C, (closes_quiz_events _ Fq).
Qed.

(** C8.  An outcome recorded with [quiz_submitted] is the last of the log,
    and no question of a later index is ever started. *)
Theorem submitted_ends_loop env maxQ st :
  let st' := snd (handleDiagnostic maxQ env st) in
  exists ev,
    trace st' = trace st ++ ev
    /\ forall o, o ∈ diagnosticData (vars st') -> actionTaken o = quiz_submitted ->
         last (diagnosticData (vars st')) = Some o
         /\ Forall (fun j => j <= questionIndex o) (processing_indices ev).
Proof.
  destruct (handleDiagnostic maxQ env st) as [r st'] eqn:H. simpl.
  apply handleDiagnostic_spec in H as (ev & started & E & O & F & P & L & N & Q & A & R).
  eexists. split; [exact E|]. intros o Ho Hsub.
  change (processing_indices (_ :: ev)) with (processing_indices ev).
  apply list_elem_of_lookup in Ho as [k Hk].
  assert (Hq : (questionIndex <$> diagnosticData (vars st')) !! k = Some (questionIndex o))
    by (by rewrite list_lookup_fmap, Hk).
  rewrite Q in Hq. apply lookup_seqZ in Hq as [Hq Hlen].
  rewrite Forall_forall in A. pose proof (A o) as Ao.
  rewrite Hsub in Ao. unfold expected_action in Ao.
  assert (Hin : o ∈ diagnosticData (vars st')) by (eapply list_elem_of_lookup_2; eauto).
  specialize (Ao Hin).
  destruct (questionIndex o <? maxQ) eqn:Hlt; [done|]. apply Z.ltb_ge in Hlt.
  split.
  - rewrite last_lookup. rewrite <- Hk. f_equal. lia.
  - rewrite P. apply Forall_forall. intros j Hj.
    apply list_elem_of_lookup in Hj as [n Hn]. apply lookup_seqZ in Hn. lia.
Qed.

(** C9.  Every entry of [diagnosticData] has [next_question_clicked] or
    [quiz_submitted] as its action: when the click on Next or on Submit Quiz
    is rejected the terminal step throws, and a turn of the loop that throws
    appends nothing. *)
Theorem outcome_log_actions env maxQ st :
  Forall (fun o => actionTaken o = next_question_clicked \/ actionTaken o = quiz_submitted)
    (diagnosticData (vars (snd (handleDiagnostic maxQ env st))))
  /\ (forall questionIndex st0,
        match respond env (trace st0) (Click (expected_selector questionIndex maxQ) 15000) with
        | Rejected _ => exists e, fst (terminalAction questionIndex maxQ env st0) = Throw e
        | Fulfilled _ => True
        end)
  /\ (forall i st0,
        match fst (processQuestion maxQ i env st0) with
        | Throw _ =>
            diagnosticData (vars (snd (processQuestion maxQ i env st0)))
            = diagnosticData (vars st0)
        | Normal _ => True
        end).
Proof.
  split_and!.
  - destruct (handleDiagnostic maxQ env st) as [r st'] eqn:H. simpl.
    apply handleDiagnostic_spec in H as (ev & started & E & O & F & P & L & N & Q & A & R).
    eapply Forall_impl; [exact A|]. intros o ->. unfold expected_action.
    destruct (questionIndex o <? maxQ); auto.
  - intros questionIndex st0.
    destruct (respond env (trace st0) _) as [v|m] eqn:Hclick; [done|].
    unfold expected_selector in Hclick.
    unfold terminalAction, bind, try_catch, set_actionTaken, modify, call, throw, emit.
    destruct (questionIndex <? maxQ); simpl in Hclick |- *; rewrite Hclick; simpl;
      destruct (respond env _ (Screenshot _)); simpl; eauto.
  - intros i st0. destruct (processQuestion maxQ i env st0) as [[b|e] st1] eqn:H; simpl; [done|].
    by apply processQuestion_spec in H as (ev & _ & _ & _ & D).
Qed.

(** C10.  For a [multiple-choice-single] or [multiple-choice] analysis whose
    [correctAnswer] is a non-empty string, the first thing done is a click on
    the label with that text, and no other click on an option follows;
    [options] is not read. *)
Theorem single_choice_clicks_proposed_answer
    env st questionIndex props questionType answerText :
  props !! "questionType" = Some (VStr questionType) ->
  questionType = "multiple-choice-single" \/ questionType = "multiple-choice" ->
  props !! "correctAnswer" = Some (VStr answerText) ->
  answerText <> "" ->
  exists reply ev,
    snd (answerQuestion questionIndex (VObj props) env st)
      = {| trace := trace st ++ Called (Click (mcOptionLabelSelector answerText) 15000) reply :: ev;
           vars := vars st |}
    /\ clicks ev = [].
Proof.
  intros Ht Hq Ha Hne.
  assert (Htruthy : negb (String.eqb answerText "") = true).
  { apply negb_true_iff, String.eqb_neq. done. }
  unfold answerQuestion, applyFallback, interact, bind, get_prop, ret. simpl.
  rewrite !Ht, !Ha. simpl. rewrite !Ht, !Ha.
  destruct Hq as [-> | ->]; simpl; rewrite Htruthy;
    unfold selectSingle, try_catch, bind, call, ret, emit; simpl;
    (destruct (respond env (trace st) _) as [v|m]; simpl;
     [by exists (Fulfilled v), []|]);
    (destruct (respond env _ (Screenshot _)) as [v|m']; simpl;
     eexists (Rejected m), [_]; by rewrite <- app_assoc).
Qed.

(** The answer D is clicked although the options are A, B, C. *)
Lemma single_choice_clicks_proposed_answer_witness :
  exists reply ev,
    snd (answerQuestion 1 (VObj (single_props (Some (VStr "D")) ABC)) three_questions initial)
      = {| trace := trace initial ++ Called (Click (mcOptionLabelSelector "D") 15000) reply :: ev;
           vars := vars initial |}
    /\ clicks ev = [].
Proof.
  apply (single_choice_clicks_proposed_answer three_questions initial 1
           (single_props (Some (VStr "D")) ABC) "multiple-choice-single" "D").
  - reflexivity.
  - left. reflexivity.
  - reflexivity.
  - discriminate.
Defined.

(** ** Further properties of the code *)

Lemma get_prop_prop_of o key env st :
  nullish o = false -> get_prop o key env st = (Normal (prop_of o key), st).
Proof. by destruct o. Qed.

Lemma applyFallback_given o env st :
  nullish o = false ->
  is_null (prop_of o "correctAnswer") = false ->
  applyFallback o env st = (Normal o, st).
Proof.
  intros Ho Hc. unfold applyFallback, bind.
  rewrite !get_prop_prop_of by done. by rewrite Hc.
Qed.

Lemma is_multiple_choice_printable questionType :
  is_multiple_choice questionType = true -> to_string_throws questionType = false.
Proof. by destruct questionType. Qed.

(** X1.  For an analysis that is neither null nor undefined and whose
    [questionType] is none of the three choice types (free-response, any
    other value, no type at all), nothing is done on the page and no variable
    changes.  The analysis comes back as it is, lines 153-158 only log,
    except when the type is not free-response and its interpolation in the
    warning of line 157 throws: then the question is aborted with that
    TypeError. *)
Theorem no_interaction_for_other_types env st questionIndex analysis :
  nullish analysis = false ->
  is_multiple_choice (prop_of analysis "questionType") = false ->
  answerQuestion questionIndex analysis env st
  = (if strict_eq_str (prop_of analysis "questionType") "free-response"
        || negb (to_string_throws (prop_of analysis "questionType"))
     then Normal analysis
     else Throw TypeError,
     st).
Proof.
  intros Ho Ht. unfold answerQuestion, applyFallback, interact, bind.
  rewrite !get_prop_prop_of by done. rewrite Ht, andb_false_r. simpl.
  rewrite !get_prop_prop_of by done. rewrite Ht. simpl.
  destruct (strict_eq_str _ "free-response"); [done|].
  by destruct (to_string_throws _).
Qed.

(** A free-response analysis and an analysis that is an empty array come
    back; an analysis whose type is an object with a key [toString] throws. *)
Lemma no_interaction_for_other_types_witness :
  answerQuestion 1 (VObj (analysis_props "free-response" (VStr "42"))) three_questions initial
    = (Normal (VObj (analysis_props "free-response" (VStr "42"))), initial)
  /\ answerQuestion 1 (VArr []) three_questions initial = (Normal (VArr []), initial)
  /\ answerQuestion 1 (VObj (unprintable_type_props (VStr "B"))) three_questions initial
     = (Throw TypeError, initial).
Proof.
  split_and!.
  - apply (no_interaction_for_other_types three_questions initial 1
             (VObj (analysis_props "free-response" (VStr "42")))); reflexivity.
  - apply (no_interaction_for_other_types three_questions initial 1 (VArr [])); reflexivity.
  - apply (no_interaction_for_other_types three_questions initial 1
             (VObj (unprintable_type_props (VStr "B")))); reflexivity.
Defined.

(** X2.  The fallback of lines 107-120 touches nothing but [correctAnswer]:
    it makes no call and changes no variable, every other property of the
    analysis reads as before, and an analysis whose [correctAnswer] is not
    null comes back unchanged. *)
Theorem fallback_only_fills_missing_answer env st analysis analysis' st' :
  applyFallback analysis env st = (Normal analysis', st') ->
  st' = st
  /\ (forall key, key <> "correctAnswer" -> prop_of analysis' key = prop_of analysis key)
  /\ (is_null (prop_of analysis "correctAnswer") = false -> analysis' = analysis).
Proof.
  intros H.
  destruct (nullish analysis) eqn:Ho.
  { destruct analysis; try discriminate Ho; discriminate H. }
  destruct (is_null (prop_of analysis "correctAnswer")) eqn:Hc.
  2:{ rewrite applyFallback_given in H by done. by simplify_eq. }
  unfold applyFallback, bind in H. rewrite !get_prop_prop_of in H by done.
  rewrite Hc in H. unfold ret in H.
  repeat match type of H with
         | context [if ?b then _ else _] => destruct b
         end; simplify_eq; split_and!; try done;
    intros key Hk; destruct analysis; try done; simpl; by rewrite lookup_insert_ne.
Qed.

(** A single-choice analysis with a null answer: the fallback sets the answer to A and nothing else. *)
Lemma fallback_only_fills_missing_answer_witness :
  snd (applyFallback (VObj (analysis_props "multiple-choice-single" VNull)) three_questions initial)
    = initial
  /\ (forall key, key <> "correctAnswer" ->
        prop_of (VObj (<["correctAnswer" := VStr "A"]> (analysis_props "multiple-choice-single" VNull))) key
        = prop_of (VObj (analysis_props "multiple-choice-single" VNull)) key)
  /\ (is_null (prop_of (VObj (analysis_props "multiple-choice-single" VNull)) "correctAnswer") = false ->
      VObj (<["correctAnswer" := VStr "A"]> (analysis_props "multiple-choice-single" VNull))
      = VObj (analysis_props "multiple-choice-single" VNull)).
Proof.
  apply (fallback_only_fills_missing_answer three_questions initial).
  vm_compute. reflexivity.
Defined.

(** X3.  When the text of the model parses to null, the read of
    [correctAnswer] on line 108 throws a TypeError: the question is aborted
    with that error, with the variables as they were and before any click. *)
Theorem null_analysis_is_a_type_error env st maxQ i st1 :
  analyseQuestion (i + 1) env (emit (Logged (ProcessingQuestion (i + 1) maxQ)) st)
    = (Normal VNull, st1) ->
  processQuestion maxQ i env st = (Throw TypeError, st1)
  /\ vars st1 = vars st
  /\ clicks (trace st1) = clicks (trace st).
Proof.
  intros H. split.
  - unfold processQuestion, bind at 1, log. unfold bind at 1. by rewrite H.
  - apply (io_run _ _ _ _ _ _ (analyseQuestion_io (i + 1))) in H as (ev & -> & F).
    simpl. split; [done|]. rewrite <- app_assoc, clicks_app.
    change (clicks ([Logged ?l] ++ ev)) with (clicks ev).
    assert (clicks ev = []) as ->; [|by rewrite app_nil_r].
    clear -F. induction F as [|e ev He _ IH]; [done|].
    change (clicks (e :: ev)) with (match click_of e with Some c => c :: clicks ev
                                    | None => clicks ev end).
    rewrite IH. by destruct He as [r [->|[->|[->| ->]]]].
Qed.

(** The model answers with the text that parses to null, on question 1 of 3. *)
Lemma null_analysis_is_a_type_error_witness :
  processQuestion 3 0 null_analysis initial
    = (Throw TypeError,
       snd (analyseQuestion 1 null_analysis (emit (Logged (ProcessingQuestion 1 3)) initial)))
  /\ vars (snd (analyseQuestion 1 null_analysis (emit (Logged (ProcessingQuestion 1 3)) initial)))
     = vars initial
  /\ clicks (trace (snd (analyseQuestion 1 null_analysis
                           (emit (Logged (ProcessingQuestion 1 3)) initial))))
     = clicks (trace initial).
Proof.
  apply (null_analysis_is_a_type_error null_analysis initial 3 0).
  vm_compute. reflexivity.
Defined.

Lemma for_of_app {A} (l1 l2 : list A) body env st :
  for_of (l1 ++ l2) body env st
  = match for_of l1 body env st with
    | (Normal _, st1) => for_of l2 body env st1
    | (Throw e, st1) => (Throw e, st1)
    end.
Proof.
  revert st. induction l1 as [|x l1 IH]; intros st; simpl; [done|].
  unfold bind. destruct (body x env st) as [[[]|e] st1]; [apply IH|done].
Qed.

(** X4.  In the array of a [multiple-choice-multiple] answer, the first
    element that is not a string ends the selection: [answerText.replace] of
    line 129 throws a TypeError outside the [try].  The labels before it have
    been clicked, in order, the elements after it are never tried, and the
    question is aborted (the screenshots of line 135 being captured). *)
Theorem non_string_answer_stops_the_selection
    env st questionIndex props before bad rest :
  props !! "questionType" = Some (VStr "multiple-choice-multiple") ->
  props !! "correctAnswer" = Some (VArr ((VStr <$> before) ++ bad :: rest)) ->
  typeof_string bad = false ->
  option_screenshots_captured env questionIndex ->
  exists ev,
    answerQuestion questionIndex (VObj props) env st
      = (Throw TypeError, {| trace := trace st ++ ev; vars := vars st |})
    /\ clicks ev = (fun text => (mcOptionLabelSelector text, 10000)) <$> before.
Proof.
  intros Ht Ha Hbad Hshot.
  destruct (for_of_selectOption env questionIndex before Hshot st) as (ev & Hfor & Hc).
  exists ev. split; [|done].
  assert (Hloop : for_of ((VStr <$> before) ++ bad :: rest) (selectOption questionIndex) env st
                  = (Throw TypeError, {| trace := trace st ++ ev; vars := vars st |})).
  { rewrite for_of_app, Hfor. simpl. unfold bind. by destruct bad. }
  unfold answerQuestion, applyFallback, interact, bind, get_prop, ret. simpl.
  rewrite !Ht, !Ha. simpl. rewrite !Ht, !Ha. simpl. by rewrite Hloop.
Qed.

(** The answers are B, the number 7 and C: B is clicked, C is not. *)
Lemma non_string_answer_stops_the_selection_witness :
  exists ev,
    answerQuestion 1 (VObj (analysis_props "multiple-choice-multiple" answers_B_7_C))
        multi_env initial
      = (Throw TypeError, {| trace := trace initial ++ ev; vars := vars initial |})
    /\ clicks ev = (fun text => (mcOptionLabelSelector text, 10000)) <$> ["B"].
Proof.
  apply (non_string_answer_stops_the_selection multi_env initial 1
           (analysis_props "multiple-choice-multiple" answers_B_7_C) ["B"] (VNum 7) [VStr "C"]).
  - reflexivity.
  - reflexivity.
  - reflexivity.
  - intros history text. eexists. reflexivity.
Defined.

(** X5.  A [multiple-choice-multiple] analysis whose [correctAnswer] is one
    non-empty string, not an array, takes the branch of line 139: the first
    thing done is a click on the label with that text, with the timeout of a
    single choice, and no other click on an option follows. *)
Theorem multi_type_with_one_string_is_clicked_once
    env st questionIndex props answerText :
  props !! "questionType" = Some (VStr "multiple-choice-multiple") ->
  props !! "correctAnswer" = Some (VStr answerText) ->
  answerText <> "" ->
  exists reply ev,
    snd (answerQuestion questionIndex (VObj props) env st)
      = {| trace := trace st ++ Called (Click (mcOptionLabelSelector answerText) 15000) reply :: ev;
           vars := vars st |}
    /\ clicks ev = [].
Proof.
  intros Ht Ha Hne.
  assert (Htruthy : negb (String.eqb answerText "") = true).
  { apply negb_true_iff, String.eqb_neq. done. }
  unfold answerQuestion, applyFallback, interact, bind, get_prop, ret. simpl.
  rewrite !Ht, !Ha. simpl. rewrite !Ht, !Ha. simpl. rewrite Htruthy.
  unfold selectSingle, try_catch, bind, call, ret, emit; simpl.
  destruct (respond env (trace st) _) as [v|m]; simpl; [by exists (Fulfilled v), []|].
  destruct (respond env _ (Screenshot _)) as [v|m']; simpl;
    eexists (Rejected m), [_]; by rewrite <- app_assoc.
Qed.

(** The answer of a multi-choice question is the string B. *)
Lemma multi_type_with_one_string_is_clicked_once_witness :
  exists reply ev,
    snd (answerQuestion 1 (VObj (analysis_props "multiple-choice-multiple" (VStr "B")))
           three_questions initial)
      = {| trace := trace initial ++ Called (Click (mcOptionLabelSelector "B") 15000) reply :: ev;
           vars := vars initial |}
    /\ clicks ev = [].
Proof.
  apply (multi_type_with_one_string_is_clicked_once three_questions initial 1
           (analysis_props "multiple-choice-multiple" (VStr "B")) "B").
  - reflexivity.
  - reflexivity.
  - discriminate.
Defined.

(** X6.  A [correctAnswer] that is neither null nor a string, on an analysis
    that is not a [multiple-choice-multiple] with an array, is not clicked:
    nothing is done on the page and no variable changes.  Whichever of lines
    151, 154 and 157 is reached only logs, and the analysis comes back
    unchanged, except when line 157 is reached with a type whose
    interpolation throws: then the question is aborted with that
    TypeError. *)
Theorem unrecognised_answer_is_not_clicked env st questionIndex analysis :
  nullish analysis = false ->
  is_null (prop_of analysis "correctAnswer") = false ->
  typeof_string (prop_of analysis "correctAnswer") = false ->
  strict_eq_str (prop_of analysis "questionType") "multiple-choice-multiple"
    && Array_isArray (prop_of analysis "correctAnswer") = false ->
  answerQuestion questionIndex analysis env st
  = (if strict_eq_str (prop_of analysis "questionType") "free-response"
        || negb (to_string_throws (prop_of analysis "questionType"))
     then Normal analysis
     else Throw TypeError,
     st).
Proof.
  intros Ho Hnull Hstr Hmulti. unfold answerQuestion. unfold bind at 1.
  rewrite applyFallback_given by done.
  unfold interact, bind. rewrite !get_prop_prop_of by done.
  rewrite Hmulti, Hstr.
  destruct (is_multiple_choice (prop_of analysis "questionType")) eqn:Hmc.
  - rewrite (is_multiple_choice_printable _ Hmc), orb_true_r. simpl.
    destruct (truthy _); [done|].
    by destruct (strict_eq_str _ "free-response").
  - simpl. destruct (strict_eq_str _ "free-response"); [done|].
    by destruct (to_string_throws _).
Qed.

(** An array on a single-choice question and a number on a multi-choice one
    are passed over; the number 5 on a question whose type is an object with
    a key [toString] throws. *)
Lemma unrecognised_answer_is_not_clicked_witness :
  answerQuestion 1 (VObj (analysis_props "multiple-choice-single" (VArr [VStr "B"])))
      three_questions initial
    = (Normal (VObj (analysis_props "multiple-choice-single" (VArr [VStr "B"]))), initial)
  /\ answerQuestion 1 (VObj (analysis_props "multiple-choice-multiple" (VNum 2)))
       three_questions initial
     = (Normal (VObj (analysis_props "multiple-choice-multiple" (VNum 2))), initial)
  /\ answerQuestion 1 (VObj (unprintable_type_props (VNum 5))) three_questions initial
     = (Throw TypeError, initial).
Proof.
  split_and!.
  - apply (unrecognised_answer_is_not_clicked three_questions initial 1
             (VObj (analysis_props "multiple-choice-single" (VArr [VStr "B"])))); reflexivity.
  - apply (unrecognised_answer_is_not_clicked three_questions initial 1
             (VObj (analysis_props "multiple-choice-multiple" (VNum 2)))); reflexivity.
  - apply (unrecognised_answer_is_not_clicked three_questions initial 1
             (VObj (unprintable_type_props (VNum 5)))); reflexivity.
Defined.

Lemma escape_quotes_escaped s : forall b, quotes_escaped b (escape_quotes s) = true.
Proof.
  induction s as [|c s IH]; intros b; simpl; [done|].
  destruct (Ascii.eqb c dquote) eqn:Hc; simpl.
  - apply IH.
  - rewrite Hc. apply IH.
Qed.

Lemma escape_quotes_app s1 s2 :
  escape_quotes (s1 +:+ s2) = escape_quotes s1 +:+ escape_quotes s2.
Proof.
  induction s1 as [|c s1 IH]; simpl; [done|].
  destruct (Ascii.eqb c dquote); simpl; by rewrite IH.
Qed.

(** X7.  The escaping of lines 129 and 142.  In the escaped text every
    double quote comes directly after a backslash; escaping distributes over
    concatenation; the escaped text is longer by one character for each
    double quote; and a text is left unchanged exactly when it has no double
    quote. *)
Theorem escape_quotes_properties s1 s2 :
  quotes_escaped false (escape_quotes s1) = true
  /\ escape_quotes (s1 +:+ s2) = escape_quotes s1 +:+ escape_quotes s2
  /\ String.length (escape_quotes s1) = (String.length s1 + count_quotes s1)%nat
  /\ (count_quotes s1 = 0%nat <-> escape_quotes s1 = s1).
Proof.
  split_and!.
  - apply escape_quotes_escaped.
  - apply escape_quotes_app.
  - induction s1 as [|c s IH]; simpl; [done|].
    destruct (Ascii.eqb c dquote); simpl; rewrite IH; lia.
  - assert (Hlen : String.length (escape_quotes s1)
                   = (String.length s1 + count_quotes s1)%nat).
    { induction s1 as [|c s IH]; simpl; [done|].
      destruct (Ascii.eqb c dquote); simpl; rewrite IH; lia. }
    split.
    + clear Hlen. induction s1 as [|c s IH]; simpl; [done|].
      destruct (Ascii.eqb c dquote); simpl; [done|]. intros H. by rewrite IH.
    + intros H. rewrite H in Hlen. lia.
Qed.

Lemma escape_quotes_head s rest : escape_quotes s <> String dquote rest.
Proof.
  destruct s as [|c s]; simpl; [done|].
  destruct (Ascii.eqb c dquote) eqn:Hc; [done|].
  intros H. injection H as -> _. by rewrite Ascii.eqb_refl in Hc.
Qed.

Lemma escape_quotes_inj s1 : forall s2, escape_quotes s1 = escape_quotes s2 -> s1 = s2.
Proof.
  induction s1 as [|c1 s1 IH]; intros [|c2 s2]; simpl; try done.
  - by destruct (Ascii.eqb c2 dquote).
  - by destruct (Ascii.eqb c1 dquote).
  - destruct (Ascii.eqb c1 dquote) eqn:H1, (Ascii.eqb c2 dquote) eqn:H2; intros H.
    + apply Ascii.eqb_eq in H1, H2. subst. injection H as H. f_equal. by apply IH.
    + injection H as <- H. symmetry in H. by apply escape_quotes_head in H.
    + injection H as -> H. by apply escape_quotes_head in H.
    + injection H as -> H. f_equal. by apply IH.
Qed.

Lemma string_length_app (s t : string) :
  String.length (s +:+ t) = (String.length s + String.length t)%nat.
Proof. induction s as [|c s IH]; simpl; [done|]. by rewrite IH. Qed.

Lemma string_app_inv_tail (s1 s2 t : string) : s1 +:+ t = s2 +:+ t -> s1 = s2.
Proof.
  intros H.
  assert (Hl : String.length s1 = String.length s2).
  { apply (f_equal String.length) in H. rewrite !string_length_app in H. lia. }
  revert s2 H Hl. induction s1 as [|c s1 IH]; intros [|c2 s2] H Hl; simpl in *; try done.
  injection H as -> H. f_equal. apply IH; [done|lia].
Qed.

(** X8.  Two answer texts give the same label selector only when they are
    the same text. *)
Theorem mcOptionLabelSelector_inj a b :
  mcOptionLabelSelector a = mcOptionLabelSelector b <-> a = b.
Proof.
  split; [|by intros ->].
  unfold mcOptionLabelSelector. intros H.
  apply escape_quotes_inj. simpl in H.
  repeat injection H as H.
  exact (string_app_inv_tail _ _ (dq +:+ ")") H).
Qed.

Lemma throws_ret {A} P (a : A) : throws P (ret a).
Proof. intros env st e st' H. discriminate H. Qed.

Lemma throws_throw {A} (P : Error -> Prop) e : P e -> throws P (@throw A e).
Proof. intros He env st e' st' H. unfold throw in H. by simplify_eq. Qed.

Lemma throws_bind {A B} P (m : M A) (f : A -> M B) :
  throws P m -> (forall a, throws P (f a)) -> throws P (bind m f).
Proof.
  intros Hm Hf env st e st' H.
  apply bind_inv in H as [(a & st1 & H1 & H)|(e' & H1 & H)].
  - eapply Hf; eauto.
  - simplify_eq. eapply Hm; eauto.
Qed.

Lemma throws_call (P : Error -> Prop) c : (forall m, P (Rejection m)) -> throws P (call c).
Proof.
  intros HP env st e st' H. apply call_inv in H as [_ H].
  destruct (respond env (trace st) c); by simplify_eq.
Qed.

Lemma throws_try_catch {A} P Q (m : M A) h :
  throws Q m -> (forall e, Q e -> throws P (h e)) -> throws P (try_catch m h).
Proof.
  intros Hm Hh env st e st' H. unfold try_catch in H.
  destruct (m env st) as [[a|e0] st1] eqn:H1; [discriminate|].
  eapply Hh; eauto.
Qed.

Lemma throws_for_of {A} P (items : list A) body :
  (forall x, throws P (body x)) -> throws P (for_of items body).
Proof.
  intros Hb. induction items as [|x rest IH]; simpl.
  - apply throws_ret.
  - apply throws_bind; auto.
Qed.

Lemma throws_get_prop (P : Error -> Prop) o key : P TypeError -> throws P (get_prop o key).
Proof. intros HP. destruct o; simpl; first [by apply throws_throw | apply throws_ret]. Qed.

Lemma throws_parse_json (P : Error -> Prop) text : P SyntaxError -> throws P (parse_json text).
Proof.
  intros HP env st e st' H. unfold parse_json in H.
  destruct (JSON_parse env text); by simplify_eq.
Qed.

Lemma analyseQuestion_throws questionIndex maxQ :
  throws (step_error questionIndex maxQ) (analyseQuestion questionIndex).
Proof.
  unfold analyseQuestion.
  do 3 (apply throws_bind; [by apply throws_call|intros _]).
  apply throws_bind; [by apply throws_call|].
  intros [[|c text]|]; first [by apply throws_throw | by apply throws_parse_json].
Qed.

Lemma answerQuestion_throws questionIndex maxQ a :
  throws (step_error questionIndex maxQ) (answerQuestion questionIndex a).
Proof.
  assert (Hcall : forall c, throws (step_error questionIndex maxQ) (call c))
    by (intros c; by apply throws_call).
  assert (Hprop : forall o key, throws (step_error questionIndex maxQ) (get_prop o key))
    by (intros o key; by apply throws_get_prop).
  assert (Hcatch : forall (m h : M unit),
            throws (step_error questionIndex maxQ) m ->
            throws (step_error questionIndex maxQ) h ->
            throws (step_error questionIndex maxQ) (try_catch m (fun _ => h))).
  { intros m h Hm Hh. eapply throws_try_catch; [exact Hm|]. by intros e _. }
  unfold answerQuestion. apply throws_bind.
  - unfold applyFallback. do 3 (apply throws_bind; [apply Hprop|intros ?]).
    repeat match goal with |- throws _ (if ?b then _ else _) => destruct b end;
      first [apply throws_ret | by apply throws_throw].
  - intros a'. apply throws_bind; [|intros _; apply throws_ret].
    unfold interact. do 2 (apply throws_bind; [apply Hprop|intros ?]).
    repeat match goal with |- throws _ (if ?b then _ else _) => destruct b end;
      try first [apply throws_ret | by apply throws_throw].
    + apply throws_for_of. intros x. unfold selectOption.
      destruct x; try by apply throws_throw.
      apply Hcatch; (apply throws_bind; [apply Hcall|intros _; apply throws_ret]).
    + unfold selectSingle.
      apply Hcatch; (apply throws_bind; [apply Hcall|intros _; apply throws_ret]).
Qed.

Lemma terminalAction_throws questionIndex maxQ :
  throws (step_error questionIndex maxQ) (terminalAction questionIndex maxQ).
Proof.
  intros env st e st' H.
  unfold terminalAction, bind, try_catch, set_actionTaken, modify, call, ret, throw, emit in H.
  simpl in H.
  destruct (questionIndex <? maxQ) eqn:Hlt;
    [apply Z.ltb_lt in Hlt|apply Z.ltb_ge in Hlt];
    run_calls; simplify_eq; simpl; auto.
Qed.

Lemma processQuestion_throws maxQ i :
  throws (step_error (i + 1) maxQ) (processQuestion maxQ i).
Proof.
  unfold processQuestion.
  apply throws_bind; [intros env st e st' H; discriminate H|intros _].
  apply throws_bind; [apply analyseQuestion_throws|intros a].
  apply throws_bind; [apply answerQuestion_throws|intros a'].
  apply throws_bind; [apply terminalAction_throws|intros _].
  intros env st e st' H. discriminate H.
Qed.

Lemma questionLoop_throws env bound : forall maxQ i st e st',
  questionLoop bound maxQ i env st = (Throw e, st') ->
  exists new,
    diagnosticData (vars st') = diagnosticData (vars st) ++ new
    /\ step_error (i + Z.of_nat (length new) + 1) maxQ e
    /\ i + Z.of_nat (length new) + 1 <= maxQ.
Proof.
  induction bound as [|bound IH]; intros maxQ i st e st' H; simpl in H; [discriminate|].
  destruct (i <? maxQ) eqn:Hlt; [|discriminate]. apply Z.ltb_lt in Hlt.
  apply bind_inv in H as [(submitted & st1 & H1 & H)|(e' & H1 & He)].
  - apply processQuestion_spec in H1 as (ev1 & _ & _ & _ & (analysis & D1 & _ & _)).
    destruct submitted; [discriminate|].
    apply IH in H as (new & D & Hs & B).
    eexists (_ :: new). rewrite D, D1, <- app_assoc. split; [done|].
    simpl length. replace (i + Z.of_nat (S (length new)) + 1)
      with (i + 1 + Z.of_nat (length new) + 1) by lia. done.
  - injection He as <-. pose proof H1 as H2.
    apply processQuestion_throws in H1.
    apply processQuestion_spec in H2 as (ev1 & _ & _ & _ & D1).
    exists []. rewrite app_nil_r.
    change (Z.of_nat (length (@nil QuestionOutcome))) with 0.
    replace (i + 0 + 1) with (i + 1) by lia.
    split_and!; [exact D1|exact H1|lia].
Qed.

(** X9.  Whatever [handleDiagnostic] throws is a rejected call as it came, a
    TypeError, a SyntaxError, or one of the three errors that the loop makes
    itself, and these name the question that failed: its index is the number
    of outcomes logged so far plus one.  The error of the click on Next only
    arises before the last question, the error of the click on Submit Quiz
    only on the last one, and the error of the login never. *)
Theorem aborted_run_names_the_failed_question env maxQ st :
  match fst (handleDiagnostic maxQ env st) with
  | Normal _ => True
  | Throw e =>
      let failed :=
        Z.of_nat (length (diagnosticData (vars (snd (handleDiagnostic maxQ env st))))) + 1 in
      match e with
      | Rejection _ | TypeError | SyntaxError => True
      | NoLlmContent k => k = failed /\ failed <= maxQ
      | FailedToClickNext k (Rejection _) => k = failed /\ failed < maxQ
      | FailedToClickSubmit k (Rejection _) => k = failed /\ failed = maxQ
      | _ => False
      end
  end.
Proof.
  destruct (handleDiagnostic maxQ env st) as [[log|e] st'] eqn:H; simpl; [done|].
  unfold handleDiagnostic in H.
  apply bind_inv in H as [([] & st0 & H0 & H)|(? & H0 & _)]; [|discriminate].
  apply bind_inv in H as [([] & st1 & H1 & H)|(? & H1 & _)]; [|discriminate].
  unfold log in H0. unfold set_diagnosticData, modify in H1. simplify_eq.
  unfold try_catch in H.
  match type of H with context [bind ?m ?f env ?s] =>
    destruct (bind m f env s) as [[l|e0] st2] eqn:Hbody; [discriminate|]
  end.
  unfold throw in H. injection H as -> ->.
  apply bind_inv in Hbody as [(v & st3 & Hm & Hloop)|(e' & Hm & He)].
  - apply call_inv in Hm as [-> _].
    apply questionLoop_throws in Hloop as (new & D & Hs & B). simpl in D.
    rewrite D. simpl in Hs. unfold step_error in Hs.
    destruct e as [| | | |k []|k []|]; try done; destruct Hs; split; try done; lia.
  - apply call_inv in Hm as [-> Hm]. injection He as <-.
    destruct (respond env _ Mkdir); by simplify_eq.
Qed.

(** X10.  When the click on Next fulfils and the wait for the network that
    follows it (line 173) is rejected, the error thrown still says that the
    click on Next failed, with the rejection of the wait as its cause;
    [actionTaken] ends as [error_clicking_next], and the click has been made
    (the screenshot of line 184 being captured). *)
Theorem failed_wait_is_reported_as_failed_click env st questionIndex maxQ v m :
  questionIndex < maxQ ->
  respond env (trace st) (Click NEXT_QUESTION_BUTTON_SELECTOR 15000) = Fulfilled v ->
  respond env (trace st ++ [Called (Click NEXT_QUESTION_BUTTON_SELECTOR 15000) (Fulfilled v)])
    (WaitForLoadState 15000) = Rejected m ->
  (forall history, exists v',
      respond env history (Screenshot (Some (Q_error_next_click questionIndex))) = Fulfilled v') ->
  fst (terminalAction questionIndex maxQ env st)
    = Throw (FailedToClickNext questionIndex (Rejection m))
  /\ var_actionTaken (vars (snd (terminalAction questionIndex maxQ env st))) = error_clicking_next
  /\ terminal_clicks (trace (snd (terminalAction questionIndex maxQ env st)))
     = terminal_clicks (trace st) ++ [NEXT_QUESTION_BUTTON_SELECTOR].
Proof.
  intros Hlt Hclick Hwait Hshot. apply Z.ltb_lt in Hlt.
  unfold terminalAction, bind, try_catch, set_actionTaken, modify, call, ret, throw, emit.
  simpl. rewrite Hlt. simpl in Hclick, Hwait |- *. rewrite Hclick. simpl. rewrite Hwait. simpl.
  match goal with |- context [respond env ?h (Screenshot ?p)] =>
    destruct (Hshot h) as [v' Hs]; simpl in Hs; rewrite Hs end.
  simpl. split_and!; try done.
  rewrite !terminal_clicks_app. simpl. by rewrite !app_nil_r.
Qed.

(** Question 1 of 3: the click on Next fulfils, the wait after it times out. *)
Lemma failed_wait_is_reported_as_failed_click_witness :
  fst (terminalAction 1 3 stuck_after_next initial)
    = Throw (FailedToClickNext 1 (Rejection "Timeout 15000ms exceeded"))
  /\ var_actionTaken (vars (snd (terminalAction 1 3 stuck_after_next initial))) = error_clicking_next
  /\ terminal_clicks (trace (snd (terminalAction 1 3 stuck_after_next initial)))
     = terminal_clicks (trace initial) ++ [NEXT_QUESTION_BUTTON_SELECTOR].
Proof.
  apply (failed_wait_is_reported_as_failed_click stuck_after_next initial 1 3 None).
  - lia.
  - reflexivity.
  - reflexivity.
  - intros history. eexists. reflexivity.
Defined.

Lemma processQuestion_terminal_clicks env st maxQ i r st' :
  processQuestion maxQ i env st = (r, st') ->
  exists ev,
    trace st' = trace st ++ ev
    /\ match r with
       | Normal submitted =>
           submitted = negb (i + 1 <? maxQ)
           /\ terminal_clicks ev = [expected_selector (i + 1) maxQ]
       | Throw _ =>
           terminal_clicks ev = [] \/ terminal_clicks ev = [expected_selector (i + 1) maxQ]
       end.
Proof.
  intros H. pose proof H as H'.
  apply processQuestion_spec in H' as (ev & E & _ & _ & R).
  exists (Logged (ProcessingQuestion (i + 1) maxQ) :: ev). split; [done|].
  change (terminal_clicks (?e :: ev)) with (terminal_clicks ev).
  destruct r as [submitted|e].
  { destruct R as (analysis & _ & S & T). by rewrite expected_action_submitted in S. }
  clear R. unfold processQuestion in H.
  apply bind_inv in H as [(? & st0 & H0 & H)|(e0 & H0 & _)]; [|discriminate].
  unfold log in H0. simplify_eq.
  apply bind_inv in H as [(a & st1 & H1 & H)|(e0 & H1 & _)];
    (apply (io_run _ _ _ _ _ _ (analyseQuestion_io (i + 1))) in H1 as (ev1 & -> & F1));
    pose proof (terminal_clicks_analysing _ _ F1) as T1; simpl in E.
  2:{ left. rewrite <- app_assoc in E. simpl in E. apply app_inv_head in E.
      by simplify_eq. }
  apply bind_inv in H as [(a' & st3 & H3 & H)|(e0 & H3 & _)];
    (apply (io_run _ _ _ _ _ _ (answerQuestion_io (i + 1) a)) in H3 as (ev3 & -> & F3));
    pose proof (terminal_clicks_answering _ _ F3) as T3; simpl in E.
  2:{ left. rewrite <- !app_assoc in E. simpl in E. apply app_inv_head in E.
      simplify_eq. by rewrite terminal_clicks_app, T1, T3. }
  apply bind_inv in H as [([] & st4 & H4 & H)|(e0 & H4 & _)].
  { unfold bind, get_vars, push, set_diagnosticData, modify, log, ret, emit in H. discriminate. }
  apply terminalAction_spec in H4 as (ev4 & act & E4 & _ & _ & T4 & _). simpl in E4.
  right. rewrite E4, <- !app_assoc in E. simpl in E. apply app_inv_head in E.
  simplify_eq. by rewrite !terminal_clicks_app, T1, T3, T4.
Qed.

Lemma expected_terminal_clicks_next maxQ i :
  i + 1 < maxQ ->
  replicate (Z.to_nat (maxQ - i - 1)) NEXT_QUESTION_BUTTON_SELECTOR
  = NEXT_QUESTION_BUTTON_SELECTOR
    :: replicate (Z.to_nat (maxQ - (i + 1) - 1)) NEXT_QUESTION_BUTTON_SELECTOR.
Proof.
  intros H. replace (Z.to_nat (maxQ - i - 1)) with (S (Z.to_nat (maxQ - (i + 1) - 1))) by lia.
  reflexivity.
Qed.

Lemma questionLoop_terminal_clicks env bound : forall maxQ i st r st',
  questionLoop bound maxQ i env st = (r, st') ->
  i < maxQ ->
  exists ev,
    trace st' = trace st ++ ev
    /\ terminal_clicks ev `prefix_of`
         replicate (Z.to_nat (maxQ - i - 1)) NEXT_QUESTION_BUTTON_SELECTOR
           ++ [SUBMIT_QUIZ_BUTTON_SELECTOR]
    /\ (forall log, r = Normal log -> maxQ - i <= Z.of_nat bound ->
          terminal_clicks ev
          = replicate (Z.to_nat (maxQ - i - 1)) NEXT_QUESTION_BUTTON_SELECTOR
              ++ [SUBMIT_QUIZ_BUTTON_SELECTOR]).
Proof.
  induction bound as [|bound IH]; intros maxQ i st r st' H Hlt; simpl in H.
  { unfold bind, get_vars, ret in H. simplify_eq. exists []. rewrite app_nil_r.
    split_and!; [done|apply prefix_nil|intros; lia]. }
  pose proof Hlt as Hb. apply Z.ltb_lt in Hb. rewrite Hb in H.
  apply bind_inv in H as [(submitted & st1 & H1 & H)|(e & H1 & ->)];
    apply processQuestion_terminal_clicks in H1 as (ev1 & E1 & R1).
  2:{ exists ev1. split_and!; [done| |done].
      destruct R1 as [-> | ->]; [apply prefix_nil|].
      unfold expected_selector. destruct (i + 1 <? maxQ) eqn:Hn.
      - apply Z.ltb_lt in Hn. rewrite expected_terminal_clicks_next by done.
        simpl. apply prefix_cons, prefix_nil.
      - apply Z.ltb_ge in Hn. by replace (Z.to_nat (maxQ - i - 1)) with 0%nat by lia. }
  destruct R1 as [-> T1]. unfold expected_selector in T1.
  destruct (i + 1 <? maxQ) eqn:Hn; simpl in H.
  - apply Z.ltb_lt in Hn.
    apply IH in H as (ev & E & P & N); [|done].
    exists (ev1 ++ ev). rewrite E, E1, <- app_assoc, terminal_clicks_app, T1.
    rewrite expected_terminal_clicks_next by done. simpl.
    split_and!; [done|by apply prefix_cons|].
    intros log -> Hbound. f_equal. eapply N; [done|lia].
  - apply Z.ltb_ge in Hn. unfold bind, get_vars, ret in H. simplify_eq.
    exists ev1. replace (Z.to_nat (maxQ - i - 1)) with 0%nat by lia. rewrite T1.
    by split_and!.
Qed.

(** X11.  The clicks on Next and on Submit Quiz over a run of
    [handleDiagnostic], however it ends, are a prefix of: Next, [maxQ - 1]
    times, then Submit Quiz, once.  So Submit Quiz is not clicked before the
    last question nor twice, and Next is not clicked after it.  On a run
    that returns, with [maxQ] positive, they are the whole sequence. *)
Theorem terminal_clicks_of_a_run env maxQ st :
  exists ev,
    trace (snd (handleDiagnostic maxQ env st)) = trace st ++ ev
    /\ terminal_clicks ev `prefix_of` expected_terminal_clicks maxQ
    /\ (forall log, fst (handleDiagnostic maxQ env st) = Normal log -> 0 < maxQ ->
          terminal_clicks ev = expected_terminal_clicks maxQ).
Proof.
  destruct (handleDiagnostic maxQ env st) as [r st'] eqn:H. simpl.
  unfold handleDiagnostic in H.
  apply bind_inv in H as [([] & st0 & H0 & H)|(? & H0 & _)]; [|discriminate].
  apply bind_inv in H as [([] & st1 & H1 & H)|(? & H1 & _)]; [|discriminate].
  unfold log in H0. unfold set_diagnosticData, modify in H1. simplify_eq.
  unfold try_catch in H.
  match type of H with context [bind ?m ?f env ?s] =>
    destruct (bind m f env s) as [r0 st2] eqn:Hbody
  end.
  assert (st2 = st' /\ forall log, r = Normal log -> r0 = Normal log) as [-> Hr].
  { destruct r0; unfold throw in H; by simplify_eq. }
  clear H.
  apply bind_inv in Hbody as [(v & st3 & Hm & Hloop)|(e' & Hm & ->)].
  - apply call_inv in Hm as [-> _].
    destruct (Z.lt_ge_cases 0 maxQ) as [Hpos|Hneg].
    + apply questionLoop_terminal_clicks in Hloop as (ev & E & P & N); [|done].
      simpl in E. rewrite <- !app_assoc in E.
      eexists. split; [exact E|]. simpl.
      unfold expected_terminal_clicks. replace (maxQ - 0 - 1) with (maxQ - 1) in * by lia.
      split; [done|]. intros log Hlog _. eapply N; [by apply Hr|lia].
    + replace (Z.to_nat maxQ) with 0%nat in Hloop by lia. simpl in Hloop.
      unfold bind, get_vars, ret in Hloop. simplify_eq. simpl.
      rewrite <- !app_assoc. eexists. split; [done|]. simpl.
      split; [apply prefix_nil|]. intros; lia.
  - apply call_inv in Hm as [-> _]. simpl. rewrite <- !app_assoc.
    eexists. split; [done|]. simpl. split; [apply prefix_nil|].
    intros log Hlog. by apply Hr in Hlog.
Qed.

Lemma scrapeMaxQuestions_reads env st text n :
  respond env (trace st) (TextContent QUESTIONS_COUNT_SELECTOR 10000) = Fulfilled text ->
  js_parseInt env text = Some n ->
  0 < n ->
  scrapeMaxQuestions env st
    = (Normal n, emit (Called (TextContent QUESTIONS_COUNT_SELECTOR 10000) (Fulfilled text)) st).
Proof.
  intros Hr Hp Hn. unfold scrapeMaxQuestions, try_catch, bind, call, ret. simpl in *.
  rewrite Hr. simpl. rewrite Hp. apply Z.leb_gt in Hn. by rewrite Hn.
Qed.

Lemma takeQuiz_counted env st evq :
  trace (snd (takeQuiz env st)) = trace st ++ evq ->
  forall text n,
    Called (TextContent QUESTIONS_COUNT_SELECTOR 10000) (Fulfilled text) ∈ evq ->
    js_parseInt env text = Some n ->
    0 < n ->
    (forall k, Logged (StartingDiagnostic k) ∈ evq -> k = n)
    /\ exists started : nat,
         processing_indices evq = seqZ 1 (Z.of_nat started) /\ Z.of_nat started <= n.
Proof.
  destruct (takeQuiz env st) as [r st'] eqn:H. simpl. intros Eq text n Hin Hp Hn.
  unfold takeQuiz in H.
  apply bind_inv in H as [(v0 & st0 & H0 & H)|(e & H0 & ->)];
    apply call_inv in H0 as [-> H0].
  2:{ simpl in Eq. apply app_inv_head in Eq. subst evq.
      apply list_elem_of_singleton in Hin. done. }
  set (e0 := Called (WaitForSelector START_QUIZ_SELECTOR 20000) _) in *.
  destruct (scrapeMaxQuestions_spec env (emit e0 st)) as (n' & Hs & Hpos & _).
  apply bind_inv in H as [(n'' & st1 & H1 & H)|(e & H1 & ->)];
    rewrite Hs in H1; [|discriminate]. injection H1 as <- <-.
  set (e1 := Called (TextContent QUESTIONS_COUNT_SELECTOR 10000) _) in *.
  apply bind_inv in H as [(v2 & st2 & H2 & H)|(e & H2 & ->)];
    apply call_inv in H2 as [-> H2].
  2:{ simpl in Eq. rewrite <- !app_assoc in Eq. apply app_inv_head in Eq. subst evq.
      split.
      - intros k Hk. cbn [app] in Hk. subst e0 e1. rewrite !elem_of_cons, elem_of_nil in Hk.
        repeat (destruct Hk as [Hk|Hk]; [discriminate Hk|]). done.
      - exists 0%nat. split; [done|lia]. }
  set (e2 := Called (Click START_QUIZ_SELECTOR 20000) _) in *.
  apply bind_inv in H as [(v3 & st3 & H3 & H)|(e & H3 & ->)];
    apply call_inv in H3 as [-> H3].
  2:{ simpl in Eq. rewrite <- !app_assoc in Eq. apply app_inv_head in Eq. subst evq.
      split.
      - intros k Hk. cbn [app] in Hk. subst e0 e1 e2. rewrite !elem_of_cons, elem_of_nil in Hk.
        repeat (destruct Hk as [Hk|Hk]; [discriminate Hk|]). done.
      - exists 0%nat. split; [done|lia]. }
  set (e3 := Called (WaitForLoadState 20000) _) in *.
  assert (exists r4 st4, handleDiagnostic n' env (emit e3 (emit e2 (emit e1 (emit e0 st)))) = (r4, st4)
                         /\ st' = st4) as (r4 & st4 & H4 & ->).
  { apply bind_inv in H as [(v4 & st4 & H4 & H)|(e & H4 & ->)]; eauto.
    unfold ret in H. simplify_eq. eauto. }
  clear H.
  apply handleDiagnostic_spec in H4 as (ev & started & E & _ & F & P & L & _).
  simpl in E. rewrite E, <- !app_assoc in Eq. apply app_inv_head in Eq. simpl in Eq.
  subst evq.
  assert (n' = n) as ->.
  { apply elem_of_cons in Hin as [Hin|Hin]; [discriminate Hin|].
    apply elem_of_cons in Hin as [Hin|Hin].
    - subst e1. injection Hin as Hin.
      pose proof (scrapeMaxQuestions_reads env (emit e0 st) text n (eq_sym Hin) Hp Hn) as Hs'.
      rewrite Hs in Hs'. by injection Hs'.
    - do 3 (apply elem_of_cons in Hin as [Hin|Hin]; [discriminate Hin|]).
      by apply diagnostic_not_discovery in Hin. }
  split.
  - intros k Hk. rewrite !elem_of_cons in Hk.
    destruct Hk as [?|[?|[?|[?|[Hk|Hk]]]]]; try done.
    + by injection Hk.
    + by apply diagnostic_not_starting in Hk.
  - exists started.
    change (processing_indices (e0 :: e1 :: e2 :: e3 :: Logged (StartingDiagnostic n) :: ev))
      with (processing_indices ev).
    split; [done|lia].
Qed.

(** X12.  When the questions count read off the landing page parses to a
    positive [n], [handleDiagnostic] is started for [n] questions and for no
    other number, and the questions started over the whole run are 1, 2, ...
    up to an index that is at most [n]. *)
Theorem count_on_the_page_bounds_the_run env st ev text n :
  trace (snd (runCanvasScraper env st)) = trace st ++ ev ->
  Called (TextContent QUESTIONS_COUNT_SELECTOR 10000) (Fulfilled text) ∈ ev ->
  js_parseInt env text = Some n ->
  0 < n ->
  (forall k, Logged (StartingDiagnostic k) ∈ ev -> k = n)
  /\ exists started : nat,
       processing_indices ev = seqZ 1 (Z.of_nat started) /\ Z.of_nat started <= n.
Proof.
  intros E Hin Hp Hn.
  destruct (runCanvasScraper_shape env st) as (pre & evq & post & E' & Fpre & Hshape).
  rewrite E in E'. apply app_inv_head in E'. subst ev.
  destruct Hshape as [(-> & -> & _)|(_ & _ & [r ->] & [stq Hq])].
  { rewrite !app_nil_r in Hin. by apply setup_not_discovery in Hin. }
  rewrite !elem_of_app, list_elem_of_singleton in Hin.
  destruct Hin as [Hin|[Hin|Hin]];
    [by apply setup_not_discovery in Hin| |discriminate Hin].
  destruct (takeQuiz_counted env stq evq Hq text n Hin Hp Hn) as [Hk (started & P & L)].
  split.
  - intros k Hin'. rewrite !elem_of_app, list_elem_of_singleton in Hin'.
    destruct Hin' as [Hin'|[Hin'|Hin']];
      [by apply setup_not_logged in Hin'|by apply Hk|discriminate Hin'].
  - exists started.
    rewrite !processing_indices_app, (processing_indices_setup _ Fpre), P.
    simpl. by rewrite app_nil_r.
Qed.

(** The landing page shows 3 questions. *)
Lemma count_on_the_page_bounds_the_run_witness :
  (forall k, Logged (StartingDiagnostic k)
               ∈ trace (snd (runCanvasScraper three_questions initial)) -> k = 3)
  /\ exists started : nat,
       processing_indices (trace (snd (runCanvasScraper three_questions initial)))
         = seqZ 1 (Z.of_nat started) /\ Z.of_nat started <= 3.
Proof.
  apply (count_on_the_page_bounds_the_run three_questions initial _ (Some "3") 3).
  - reflexivity.
  - vm_compute. repeat first [apply list_elem_of_here | apply list_elem_of_further].
  - reflexivity.
  - lia.
Defined.

(** X13.  [loginToCanvas] makes its nine calls in the order of the source
    and stops at the first one that is rejected.  When all nine fulfil it
    returns, with the browser left open.  Otherwise it throws the login
    error, whose cause is the rejection of that call; the browser has then
    been closed exactly when the connection had been made (the rejection came
    from the third call or from a later one), and a rejection of that close
    is swallowed. *)
Theorem login_stops_at_first_rejection env st :
  exists (k : nat) pre,
    Forall2 fulfils (take k login_calls) pre
    /\ match fst (loginToCanvas env st) with
       | Normal result =>
           k = length login_calls
           /\ trace (snd (loginToCanvas env st)) = trace st ++ pre
           /\ browser (vars (snd (loginToCanvas env st))) = Some (lr_browser result)
       | Throw e =>
           exists c message closing,
             login_calls !! k = Some c
             /\ e = CanvasLoginFailed (Rejection message)
             /\ trace (snd (loginToCanvas env st))
                = trace st ++ pre ++ Called c (Rejected message) :: closing
             /\ if (2 <=? k)%nat
                then exists r, closing = [Called BrowserClose r]
                else closing = []
       end.
Proof.
  destruct (loginToCanvas env st) as [r st'] eqn:H. simpl.
  unfold loginToCanvas, bind, try_catch, set_session, set_browser, modify, get_vars, call,
    ret, throw, emit in H.
  simpl in H.
  run_calls; simpl in H; run_calls; simplify_eq; simpl; rewrite <- ?app_assoc; simpl;
    let finish k :=
      solve [ exists k; eexists; simpl;
              (split; [repeat (constructor; [eexists; reflexivity|]); constructor|]);
              first [ by split_and!
                    | eexists _, _, _; split_and!;
                      [reflexivity|reflexivity|reflexivity|simpl; eauto] ] ] in
    first [ finish 0%nat | finish 1%nat | finish 2%nat | finish 3%nat | finish 4%nat
          | finish 5%nat | finish 6%nat | finish 7%nat | finish 8%nat | finish 9%nat ].
Qed.

Lemma last_snoc_event (l : list Event) e : last (l ++ [e]) = Some e.
Proof. by rewrite last_snoc. Qed.

(** X14.  [runCanvasScraper] rejects exactly when the [browser.close()] of
    its [finally] is rejected (line 303 is in no [try]): the login had
    returned, the last event of the run is that rejected close, and its
    rejection is the error. *)
Theorem run_rejects_only_when_final_close_rejects env st e :
  fst (runCanvasScraper env st) = Throw e
  <-> exists message,
        e = Rejection message
        /\ is_Some (loginResult (vars (snd (runCanvasScraper env st))))
        /\ last (trace (snd (runCanvasScraper env st)))
           = Some (Called BrowserClose (Rejected message)).
Proof.
  destruct (runCanvasScraper env st) as [r st'] eqn:H. simpl.
  unfold runCanvasScraper in H.
  apply bind_inv in H as [([] & st0 & _ & H)|(e0 & H0 & _)]; [|discriminate].
  apply try_finally_inv in H as (r1 & st1 & r2 & H1 & H2 & ->).
  match type of H1 with try_catch ?m _ _ _ = _ =>
    pose proof (try_catch_ret_tt m env st0) as Hr end.
  rewrite H1 in Hr. simpl in Hr. subst r1.
  unfold bind, get_vars, call, ret in H2.
  destruct (loginResult (vars st1)) as [result|] eqn:Hl.
  - destruct (respond env (trace st1) BrowserClose) as [v|m]; simplify_eq; simpl;
      rewrite last_snoc_event, Hl.
    + split; [done|]. by intros (m & _ & _ & ?).
    + split.
      * intros [= <-]. eauto.
      * intros (m' & -> & _ & [= ->]). done.
  - simplify_eq. rewrite Hl. split; [done|]. intros (m & _ & [? ?] & _). done.
Qed.

Lemma loginToCanvas_returns env st result st' :
  loginToCanvas env st = (Normal result, st') ->
  exists v, last (trace st') = Some (Called (WaitForURL 25000) (Fulfilled v)).
Proof.
  unfold loginToCanvas, bind, try_catch, set_session, set_browser, modify, get_vars, call,
    ret, throw, emit.
  intros H. simpl in H.
  run_calls; simpl in H; run_calls; simplify_eq; simpl.
  eexists. apply last_snoc_event.
Qed.

(** X15.  A run in which the login does not complete (its wait for the URL
    of the quiz is never fulfilled) ends there: [runCanvasScraper] still
    completes normally, [loginResult] is still unset, nothing but the first
    [mkdir] and calls of the login was attempted, and the browser was closed
    once, by the login itself, if it had been connected, and not at all
    otherwise. *)
Theorem failed_login_ends_the_run env st ev :
  trace (snd (runCanvasScraper env st)) = trace st ++ ev ->
  (forall v, Called (WaitForURL 25000) (Fulfilled v) ∉ ev) ->
  fst (runCanvasScraper env st) = Normal tt
  /\ loginResult (vars (snd (runCanvasScraper env st))) = None
  /\ Forall setup_event ev
  /\ closes ev = if handle_exists ev then 1%nat else 0%nat.
Proof.
  destruct (runCanvasScraper env st) as [r st'] eqn:H. simpl. intros E Hno.
  unfold runCanvasScraper in H.
  apply bind_inv in H as [([] & st0 & H0 & H)|(e0 & H0 & _)]; [|discriminate].
  unfold set_loginResult, modify in H0. injection H0 as <-.
  apply try_finally_inv in H as (r1 & st1 & r2 & H1 & H2 & ->).
  match type of H1 with try_catch ?m _ _ ?s = _ =>
    pose proof (try_catch_ret_tt m env s) as Hr; rewrite H1 in Hr;
    assert (exists rb, m env s = (rb, st1)) as [rb Hb]
      by (revert H1; unfold try_catch, ret; destruct (m env s) as [[[]|e0] stb];
          intros H1; simplify_eq; eauto)
  end.
  simpl in Hr. subst r1. clear H1.
  assert (Hbody : loginResult (vars st1) = None
                  /\ exists ev1, trace st1 = trace st ++ ev1
                     /\ Forall setup_event ev1
                     /\ closes ev1 = if handle_exists ev1 then 1%nat else 0%nat).
  { apply bind_inv in Hb as [(v0 & st2 & Hm & Hb)|(e0 & Hm & _)];
      apply call_inv in Hm as [-> _].
    2:{ split; [done|]. eexists [_]. split_and!; [done| |done].
        constructor; [by left|constructor]. }
    apply bind_inv in Hb as [(result & st3 & Hlog & Hb)|(e0 & Hlog & _)].
    - exfalso. pose proof (loginToCanvas_returns _ _ _ _ Hlog) as [v Hlast].
      pose proof (loginToCanvas_spec _ _ _ _ Hlog) as (evl & El & _). simpl in El.
      apply bind_inv in Hb as [([] & st4 & Hset & Hb)|(e0 & Hset & _)]; [|discriminate].
      unfold set_loginResult, modify in Hset. injection Hset as <-.
      assert (exists evq, trace st1 = trace st3 ++ evq) as [evq Eq].
      { destruct rb; apply takeQuiz_spec in Hb as (evq & Eq & _); eauto. }
      assert (exists evf, trace st' = trace st1 ++ evf) as [evf Ef].
      { unfold bind, get_vars, call, ret in H2.
        destruct (loginResult (vars st1)); [|exists []; rewrite app_nil_r; by simplify_eq].
        destruct (respond env (trace st1) BrowserClose); simplify_eq; simpl; eauto. }
      rewrite Ef, Eq, El, <- !app_assoc in E. apply app_inv_head in E. simpl in E.
      rewrite El, <- app_assoc in Hlast. simpl in Hlast.
      destruct evl as [|e1 evl _] using rev_ind.
      { simpl in Hlast. rewrite last_snoc_event in Hlast. discriminate Hlast. }
      rewrite app_comm_cons, app_assoc, last_snoc in Hlast. injection Hlast as ->.
      apply (Hno v). subst ev. rewrite <- !app_assoc.
      apply list_elem_of_further, elem_of_app. right. apply list_elem_of_here.
    - apply loginToCanvas_spec in Hlog as (evl & El & Hl & Fl & Cl). simpl in *.
      split; [done|]. exists (Called Mkdir (respond env (trace st) Mkdir) :: evl).
      rewrite El, <- app_assoc. split_and!; [done| |done].
      constructor; [by left|by apply Forall_login_setup]. }
  destruct Hbody as (Hl & ev1 & E1 & F1 & C1).
  unfold bind, get_vars, ret in H2. rewrite Hl in H2. injection H2 as <- <-.
  rewrite E1 in E. apply app_inv_head in E. subst ev1. done.
Qed.

(** The username field never shows. *)
Lemma failed_login_ends_the_run_witness :
  fst (runCanvasScraper login_page_broken initial) = Normal tt
  /\ loginResult (vars (snd (runCanvasScraper login_page_broken initial))) = None
  /\ Forall setup_event (trace (snd (runCanvasScraper login_page_broken initial)))
  /\ closes (trace (snd (runCanvasScraper login_page_broken initial)))
     = if handle_exists (trace (snd (runCanvasScraper login_page_broken initial)))
       then 1%nat else 0%nat.
Proof.
  apply (failed_login_ends_the_run login_page_broken initial).
  - reflexivity.
  - intros v Hin. vm_compute in Hin.
    repeat (apply elem_of_cons in Hin as [Hin|Hin]; [discriminate Hin|]).
    by apply elem_of_nil in Hin.
Defined.

Lemma analyseQuestion_returns env st questionIndex analysis st' :
  analyseQuestion questionIndex env st = (Normal analysis, st') ->
  exists v1 v2 v3 text,
    st' = {| trace := trace st ++
                 [Called (WaitForLoadState 10000) (Fulfilled v1);
                  Called (Screenshot None) (Fulfilled v2);
                  Called (WriteFile (Q_question questionIndex)) (Fulfilled v3);
                  Called ChatCompletion (Fulfilled (Some text))];
             vars := vars st |}
    /\ JSON_parse env text = Some analysis.
Proof.
  unfold analyseQuestion, bind, call, ret, throw, emit, parse_json. intros H. simpl in H.
  run_calls; try discriminate.
  destruct value2 as [[|c text]|]; try discriminate.
  destruct (JSON_parse env (String c text)) eqn:Hp; [|discriminate].
  simplify_eq. simpl. rewrite <- !app_assoc. simpl. by eexists _, _, _, _.
Qed.

Lemma terminalAction_returns env st questionIndex maxQ st' :
  terminalAction questionIndex maxQ env st = (Normal tt, st') ->
  exists v after,
    trace st' = trace st
                ++ Called (Click (expected_selector questionIndex maxQ) 15000) (Fulfilled v)
                   :: after
    /\ clicks after = [].
Proof.
  unfold terminalAction, expected_selector, bind, try_catch, set_actionTaken,
    modify, call, ret, throw, emit.
  intros H. simpl in H.
  destruct (questionIndex <? maxQ); run_calls; simplify_eq; simpl;
    rewrite <- ?app_assoc; simpl; by eexists _, _.
Qed.

(** X16.  The order of the actions of a question that is processed to the
    end: the log line of line 44, the wait, the screenshot and its file, and
    the answer of the model, which parses; then clicks on option labels and
    their error screenshots, and nothing else; then the fulfilled click on
    Next or on Submit Quiz; after it nothing is clicked any more, and the
    last event is the log line of line 208. *)
Theorem order_of_actions_in_a_question env st maxQ i submitted st' :
  processQuestion maxQ i env st = (Normal submitted, st') ->
  exists v1 v2 v3 text analysis selecting v after,
    trace st'
    = trace st
      ++ [Logged (ProcessingQuestion (i + 1) maxQ);
          Called (WaitForLoadState 10000) (Fulfilled v1);
          Called (Screenshot None) (Fulfilled v2);
          Called (WriteFile (Q_question (i + 1))) (Fulfilled v3);
          Called ChatCompletion (Fulfilled (Some text))]
      ++ selecting
      ++ Called (Click (expected_selector (i + 1) maxQ) 15000) (Fulfilled v) :: after
    /\ JSON_parse env text = Some analysis
    /\ Forall (answering (i + 1)) selecting
    /\ clicks after = []
    /\ last after = Some (Logged (FinishedQuestion (i + 1))).
Proof.
  unfold processQuestion. intros H.
  apply bind_inv in H as [(? & st0 & H0 & H)|(e & H0 & ?)]; [|discriminate].
  unfold log in H0. simplify_eq.
  apply bind_inv in H as [(a & st1 & H1 & H)|(e & H1 & ?)]; [|discriminate].
  apply analyseQuestion_returns in H1 as (v1 & v2 & v3 & text & -> & Hp).
  apply bind_inv in H as [(a' & st3 & H3 & H)|(e & H3 & ?)]; [|discriminate].
  pose proof (io_run _ _ _ _ _ _ (answerQuestion_io (i + 1) a) H3) as (selecting & -> & F3).
  apply bind_inv in H as [([] & st4 & H4 & H)|(e & H4 & ?)]; [|discriminate].
  apply terminalAction_returns in H4 as (v & after & E4 & C4).
  unfold bind, get_vars, push, set_diagnosticData, modify, log, ret, emit in H.
  simpl in H. simplify_eq. simpl in *.
  exists v1, v2, v3, text, a, selecting, v, (after ++ [Logged (FinishedQuestion (i + 1))]).
  rewrite E4, <- ?app_assoc. simpl. rewrite <- ?app_assoc. simpl.
  rewrite clicks_app, C4, !last_snoc.
  by split_and!.
Qed.

(** Question 1 of 3, every call fulfilled. *)
Lemma order_of_actions_in_a_question_witness :
  exists v1 v2 v3 text analysis selecting v after,
    trace (snd (processQuestion 3 0 three_questions initial))
    = trace initial
      ++ [Logged (ProcessingQuestion (0 + 1) 3);
          Called (WaitForLoadState 10000) (Fulfilled v1);
          Called (Screenshot None) (Fulfilled v2);
          Called (WriteFile (Q_question (0 + 1))) (Fulfilled v3);
          Called ChatCompletion (Fulfilled (Some text))]
      ++ selecting
      ++ Called (Click (expected_selector (0 + 1) 3) 15000) (Fulfilled v) :: after
    /\ JSON_parse three_questions text = Some analysis
    /\ Forall (answering (0 + 1)) selecting
    /\ clicks after = []
    /\ last after = Some (Logged (FinishedQuestion (0 + 1))).
Proof.
  apply (order_of_actions_in_a_question three_questions initial 3 0 false).
  reflexivity.
Defined.

Lemma closes_diagnostic ev : Forall diagnostic_event ev -> closes ev = 0%nat.
Proof.
  induction 1 as [|e ev He _ IH]; [done|].
  unfold closes in *. simpl. rewrite IH.
  apply diagnostic_event_cases in He
    as [(c & r & -> & [H| ->])|[(i & ->)|(j & m & ->)]]; try done.
  by destruct c.
Qed.

(** X17.  [handleDiagnostic] never closes the browser and makes none of the
    calls of the login; [loginResult], [browser] and [session] are as it
    found them. *)
Theorem handleDiagnostic_leaves_the_browser_open env maxQ st :
  exists ev,
    trace (snd (handleDiagnostic maxQ env st)) = trace st ++ ev
    /\ closes ev = 0%nat
    /\ Forall (fun e => ~ login_event e) ev
    /\ loginResult (vars (snd (handleDiagnostic maxQ env st))) = loginResult (vars st)
    /\ browser (vars (snd (handleDiagnostic maxQ env st))) = browser (vars st)
    /\ session (vars (snd (handleDiagnostic maxQ env st))) = session (vars st).
Proof.
  destruct (handleDiagnostic maxQ env st) as [r st'] eqn:H. simpl.
  apply handleDiagnostic_spec in H as (ev & started & E & O & F & _).
  injection O as -> -> ->.
  exists (Logged (StartingDiagnostic maxQ) :: ev). split_and!; try done.
  - change (closes (Logged (StartingDiagnostic maxQ) :: ev)) with (closes ev).
    by apply closes_diagnostic.
  - constructor; [by intros []|].
    eapply Forall_impl; [exact F|]. intros e He.
    apply diagnostic_event_cases in He
      as [(c & r0 & -> & [H| ->])|[(i & ->)|(j & m & ->)]]; simpl; try tauto.
    + destruct c; simpl in *; congruence.
    + congruence.
Qed.

(** X18.  With nothing to process ([maxQ] not positive) and the screenshot
    directory made, [handleDiagnostic] returns an empty log and does nothing
    on the page. *)
Theorem nothing_to_process env maxQ st v :
  maxQ <= 0 ->
  respond env (trace st ++ [Logged (StartingDiagnostic maxQ)]) Mkdir = Fulfilled v ->
  handleDiagnostic maxQ env st
  = (Normal [],
     {| trace := trace st ++ [Logged (StartingDiagnostic maxQ); Called Mkdir (Fulfilled v)];
        vars := upd_diagnosticData [] (vars st) |}).
Proof.
  intros Hn Hm.
  unfold handleDiagnostic, bind, try_catch, log, set_diagnosticData, modify, call, emit.
  simpl. rewrite Hm. replace (Z.to_nat maxQ) with 0%nat by lia. simpl.
  unfold bind, get_vars, ret. simpl. by rewrite <- app_assoc.
Qed.

(** No question to process. *)
Lemma nothing_to_process_witness :
  handleDiagnostic 0 three_questions initial
  = (Normal [],
     {| trace := trace initial ++ [Logged (StartingDiagnostic 0); Called Mkdir (Fulfilled None)];
        vars := upd_diagnosticData [] (vars initial) |}).
Proof.
  apply (nothing_to_process three_questions 0 initial None).
  - lia.
  - reflexivity.
Defined.

(** X19.  config.js: the module loads exactly when the six variables are
    all set and not empty, and then it exports them as read; otherwise the
    error thrown is the one of the first variable, in the order of the
    checks, that is not set. *)
Theorem config_reports_the_first_missing_variable env :
  match load_config env with
  | inr loaded =>
      loaded = config env
      /\ Forall (fun check => not_set check.1 = false) (checked_variables env)
  | inl error =>
      exists checked value unchecked,
        checked_variables env = checked ++ (value, error) :: unchecked
        /\ not_set value = true
        /\ Forall (fun check => not_set check.1 = false) checked
  end.
Proof.
  unfold load_config, checked_variables, config. simpl.
  destruct (not_set (BROWSERBASE_API_KEY env)) eqn:H1; simpl.
  { eexists [], _, _. split_and!; [reflexivity|done|done]. }
  destruct (not_set (BROWSERBASE_PROJECT_ID env)) eqn:H2; simpl.
  { eexists [_], _, _. split_and!; [reflexivity|done|by repeat constructor]. }
  destruct (not_set (CANVAS_USERNAME env)) eqn:H3; simpl.
  { eexists [_; _], _, _. split_and!; [reflexivity|done|by repeat constructor]. }
  destruct (not_set (CANVAS_PASSWORD env)) eqn:H4; simpl.
  { eexists [_; _; _], _, _. split_and!; [reflexivity|done|by repeat constructor]. }
  destruct (not_set (CANVAS_LOGIN_URL env)) eqn:H5; simpl.
  { eexists [_; _; _; _], _, _. split_and!; [reflexivity|done|by repeat constructor]. }
  destruct (not_set (OPENAI_API_KEY env)) eqn:H6; simpl.
  { eexists [_; _; _; _; _], _, _. split_and!; [reflexivity|done|by repeat constructor]. }
  split; [done|]. by repeat constructor.
Qed.

(** X20.  On the runs where the screenshot taken after a rejected click on
    an option is captured: for a [multiple-choice-multiple] analysis whose
    [correctAnswer] is an array of labels, a click is attempted on every
    label, in order and on nothing else, whatever the replies to the clicks
    are, and the question goes on (the block completes normally, the analysis
    unchanged). *)
Theorem multi_choice_clicks_every_label env st questionIndex props labels :
  props !! "questionType" = Some (VStr "multiple-choice-multiple") ->
  props !! "correctAnswer" = Some (multi_answers labels) ->
  option_screenshots_captured env questionIndex ->
  exists ev,
    answerQuestion questionIndex (VObj props) env st
      = (Normal (VObj props), {| trace := trace st ++ ev; vars := vars st |})
    /\ clicks ev = (fun text => (mcOptionLabelSelector text, 10000)) <$> labels.
Proof.
  intros Ht Ha Hshot.
  destruct (for_of_selectOption env questionIndex labels Hshot st) as (ev & Hfor & Hc).
  exists ev. split; [|done].
  unfold answerQuestion, applyFallback, interact, bind, get_prop, ret. simpl.
  rewrite !Ht, !Ha. simpl. rewrite !Ht, !Ha. simpl. unfold multi_answers. simpl. by rewrite Hfor.
Qed.

(** The click on B is rejected; C is clicked all the same. *)
Lemma multi_choice_clicks_every_label_witness :
  exists ev,
    answerQuestion 1 (VObj multi_props) multi_env initial
      = (Normal (VObj multi_props), {| trace := trace initial ++ ev; vars := vars initial |})
    /\ clicks ev = (fun text => (mcOptionLabelSelector text, 10000)) <$> ["B"; "C"].
Proof.
  apply (multi_choice_clicks_every_label multi_env initial 1 multi_props ["B"; "C"]).
  - reflexivity.
  - reflexivity.
  - intros history text. eexists. reflexivity.
Defined.
